(** * Usability-testing questionnaire: the row store, the forms and the report

    A verification development for [p1.py], a Streamlit page whose four
    forms (consent, demographics, task, exit questionnaire) append one record
    each to a CSV file of their own through [save_to_csv], and whose report
    tab reads the files back through [load_from_csv].

    The program is embedded as it is written: [save_to_csv], [load_from_csv]
    and [main] are Rocq functions over an explicit file system and an
    explicit [st.session_state]; one call of [main] is one rerun of the
    script.  The two library calls the row store rests on are embedded down to
    the bytes of the file: [DataFrame.to_csv] through Python's [csv.writer]
    (minimal quoting) and [pandas.read_csv] through the state machine of its
    tokenizer. *)

From Stdlib Require Import ZArith List String Ascii Bool Lia DecimalString DecimalPos SpecFloat.
From stdpp Require Import base option gmap strings.
Import ListNotations.

Open Scope string_scope.

(** ** Text *)

Module Text.

Definition LF : ascii := "010"%char.
Definition CR : ascii := "013"%char.
Definition TAB : ascii := "009"%char.
Definition SPACE : ascii := " "%char.
Definition COMMA : ascii := ","%char.
Definition QUOTE : ascii := "034"%char.

Definition char (c : ascii) : string := String c "".

Fixpoint forallb (p : ascii -> bool) (s : string) : bool :=
  match s with
  | "" => true
  | String c r => p c && forallb p r
  end.

Definition existsb (p : ascii -> bool) (s : string) : bool :=
  negb (forallb (fun c => negb (p c)) s).

(** [sep.join(parts)] *)
Fixpoint join (sep : string) (parts : list string) : string :=
  match parts with
  | [] => ""
  | [x] => x
  | x :: rest => x +:+ sep +:+ join sep rest
  end.

(** the concatenation of a list of texts *)
Fixpoint cat (parts : list string) : string :=
  match parts with
  | [] => ""
  | x :: rest => x +:+ cat rest
  end.

(** [old] is an initial segment of [new] *)
Definition is_prefix (old new : string) : Prop := exists rest, new = old +:+ rest.

(** [str(n)] for a Python int *)
Definition of_Z (z : Z) : string := NilZero.string_of_int (Z.to_int z).
Definition of_nat (n : nat) : string := NilZero.string_of_uint (Nat.to_uint n).

(** a number on two digits, as [%m], [%d], [%H], [%M] and [%S] print it *)
Definition pad2 (n : nat) : string :=
  if Nat.ltb n 10 then "0" +:+ of_nat n else of_nat n.

End Text.

(** ** Python's [csv.writer], as [to_csv] configures it

    pandas hands every row to [csv.writer(handle, lineterminator=os.linesep,
    delimiter=',', quoting=QUOTE_MINIMAL, doublequote=True)];
    the line terminator is the one of a POSIX system, a single line feed.
    With minimal quoting a field is quoted when it holds the delimiter, the
    quote character or a character of the line terminator, a quote inside it
    is doubled, and a row made of one empty field is written as two quotes so
    that it is not taken for a blank line. *)

Module Csv.
Import Text.

Definition is_special (c : ascii) : bool :=
  Ascii.eqb c COMMA || Ascii.eqb c QUOTE || Ascii.eqb c LF.

Definition needs_quotes (field : string) : bool := Text.existsb is_special field.

Fixpoint double_quotes (field : string) : string :=
  match field with
  | "" => ""
  | String c r =>
      if Ascii.eqb c QUOTE then String QUOTE (String QUOTE (double_quotes r))
      else String c (double_quotes r)
  end.

Definition write_field (field : string) : string :=
  if needs_quotes field then char QUOTE +:+ double_quotes field +:+ char QUOTE
  else field.

Definition writerow (fields : list string) : string :=
  match fields with
  | [""] => char QUOTE +:+ char QUOTE +:+ char LF
  | _ => join (char COMMA) (map write_field fields) +:+ char LF
  end.

End Csv.

(** ** The tokenizer of [pandas.read_csv]

    [read_csv(path)] with no option runs the C tokenizer with the comma as
    delimiter, the double quote as quote character, doubled quotes on, no
    escape and no comment character, and blank lines skipped.  Its states and
    transitions are those of [tokenize_bytes] in pandas's [tokenizer.c]; the
    states that only an escape character, a comment character or a white-space
    delimiter can reach are left out. *)

Module Tokenizer.
Import Text.

Inductive parser_state :=
| START_RECORD
| WHITESPACE_LINE
| START_FIELD
| IN_FIELD
| IN_QUOTED_FIELD
| QUOTE_IN_QUOTED_FIELD
| EAT_CRNL
| EAT_CRNL_NOP.

(** [word] is the field being read, [fields] the fields of the line being
    read, [lines] the lines already closed. *)
Record parser_t := {
  state : parser_state;
  word : string;
  fields : list string;
  lines : list (list string)
}.

Definition parser_new : parser_t :=
  {| state := START_RECORD; word := ""; fields := []; lines := [] |}.

Definition set_state (s : parser_state) (p : parser_t) : parser_t :=
  {| state := s; word := word p; fields := fields p; lines := lines p |}.

Definition PUSH_CHAR (c : ascii) (p : parser_t) : parser_t :=
  {| state := state p; word := word p +:+ char c; fields := fields p; lines := lines p |}.

Definition END_FIELD (p : parser_t) : parser_t :=
  {| state := state p; word := ""; fields := fields p ++ [word p]; lines := lines p |}.

Definition END_LINE (p : parser_t) : parser_t :=
  {| state := START_RECORD; word := ""; fields := []; lines := lines p ++ [fields p] |}.

(** a line of blanks is dropped with what was read of it *)
Definition drop_line (s : parser_state) (p : parser_t) : parser_t :=
  {| state := s; word := ""; fields := fields p; lines := lines p |}.

Definition IS_TERMINATOR (c : ascii) : bool := Ascii.eqb c LF.
Definition IS_CARRIAGE (c : ascii) : bool := Ascii.eqb c CR.
Definition IS_QUOTE (c : ascii) : bool := Ascii.eqb c QUOTE.
Definition IS_DELIMITER (c : ascii) : bool := Ascii.eqb c COMMA.
Definition IS_WHITESPACE (c : ascii) : bool := Ascii.eqb c SPACE || Ascii.eqb c TAB.

Definition start_field (c : ascii) (p : parser_t) : parser_t :=
  if IS_TERMINATOR c then END_LINE (END_FIELD p)
  else if IS_CARRIAGE c then set_state EAT_CRNL (END_FIELD p)
  else if IS_QUOTE c then set_state IN_QUOTED_FIELD p
  else if IS_DELIMITER c then set_state START_FIELD (END_FIELD p)
  else PUSH_CHAR c (set_state IN_FIELD p).

Definition in_field (c : ascii) (p : parser_t) : parser_t :=
  if IS_TERMINATOR c then END_LINE (END_FIELD p)
  else if IS_CARRIAGE c then set_state EAT_CRNL (END_FIELD p)
  else if IS_DELIMITER c then set_state START_FIELD (END_FIELD p)
  else PUSH_CHAR c (set_state IN_FIELD p).

Definition start_record (c : ascii) (p : parser_t) : parser_t :=
  if IS_TERMINATOR c then set_state START_RECORD p
  else if IS_CARRIAGE c then set_state EAT_CRNL_NOP p
  else if IS_WHITESPACE c then PUSH_CHAR c (set_state WHITESPACE_LINE p)
  else start_field c p.

(** One character.  In [WHITESPACE_LINE] a character that is not a blank
    sends the C code back to the start of the line in [START_FIELD]: the
    blanks read so far become the start of the first field, which is what
    keeping them in [word] does.  In [EAT_CRNL] and [EAT_CRNL_NOP] the C
    code closes the line and reads the character again in [START_RECORD]. *)
Definition tokenize_byte (p : parser_t) (c : ascii) : parser_t :=
  match state p with
  | START_RECORD => start_record c p
  | WHITESPACE_LINE =>
      if IS_TERMINATOR c then drop_line START_RECORD p
      else if IS_CARRIAGE c then drop_line EAT_CRNL_NOP p
      else if IS_WHITESPACE c then PUSH_CHAR c p
      else in_field c p
  | START_FIELD => start_field c p
  | IN_FIELD => in_field c p
  | IN_QUOTED_FIELD =>
      if IS_QUOTE c then set_state QUOTE_IN_QUOTED_FIELD p
      else PUSH_CHAR c p
  | QUOTE_IN_QUOTED_FIELD =>
      if IS_QUOTE c then PUSH_CHAR c (set_state IN_QUOTED_FIELD p)
      else if IS_DELIMITER c then set_state START_FIELD (END_FIELD p)
      else if IS_TERMINATOR c then END_LINE (END_FIELD p)
      else if IS_CARRIAGE c then set_state EAT_CRNL (END_FIELD p)
      else PUSH_CHAR c (set_state IN_FIELD p)
  | EAT_CRNL =>
      if IS_TERMINATOR c then END_LINE p
      else start_record c (END_LINE p)
  | EAT_CRNL_NOP =>
      if IS_TERMINATOR c || IS_CARRIAGE c then set_state START_RECORD p
      else start_record c (set_state START_RECORD p)
  end.

Fixpoint tokenize_bytes (text : string) (p : parser_t) : parser_t :=
  match text with
  | "" => p
  | String c rest => tokenize_bytes rest (tokenize_byte p c)
  end.

(** [parser_handle_eof]: the end of the data closes the line being read;
    inside a quoted field it is an error (EOF inside string). *)
Definition parser_handle_eof (p : parser_t) : option (list (list string)) :=
  match state p with
  | START_RECORD | WHITESPACE_LINE | EAT_CRNL_NOP => Some (lines p)
  | IN_QUOTED_FIELD => None
  | IN_FIELD | START_FIELD | QUOTE_IN_QUOTED_FIELD => Some (lines (END_LINE (END_FIELD p)))
  | EAT_CRNL => Some (lines (END_LINE p))
  end.

Definition tokenize_all_rows (text : string) : option (list (list string)) :=
  parser_handle_eof (tokenize_bytes text parser_new).

End Tokenizer.

(** ** Python values and the formatting of floats *)

Module Python.
Import Text.

(** The scalars a record holds.  A float is an IEEE 754 binary64 number
    ([spec_float] with 53 bits of mantissa). *)
Inductive value :=
| VStr (s : string)
| VInt (z : Z)
| VBool (b : bool)
| VFloat (f : spec_float).

(** A dict literal: the keys in the order they are written, with their
    values. *)
Definition dict := list (string * value).

Definition keys (d : dict) : list string := map fst d.
Definition values (d : dict) : list value := map snd d.

(** [d[key]] *)
Fixpoint dict_get (d : dict) (key : string) : option value :=
  match d with
  | [] => None
  | (k, v) :: rest => if String.eqb k key then Some v else dict_get rest key
  end.

(** The truth value of a float: every float but the two zeros is true. *)
Definition float_truthy (f : spec_float) : bool :=
  match f with
  | S754_zero _ => false
  | _ => true
  end.

Definition prec : Z := 53.
Definition emax : Z := 1024.

(** [x - y] and [x / y] on floats, and [float(n)] *)
Definition float_sub (x y : spec_float) : spec_float := SFsub prec emax x y.
Definition float_div (x y : spec_float) : spec_float := SFdiv prec emax x y.
Definition float_of_Z (n : Z) : spec_float := binary_normalize prec emax n 0 false.

(** The number of hundredths nearest to [m * 2^e], ties to the even one:
    the float is printed from its exact value. *)
Definition hundredths (m : positive) (e : Z) : Z :=
  let n := (Z.pos m * 100)%Z in
  if (0 <=? e)%Z then (n * 2 ^ e)%Z
  else
    let d := (2 ^ (- e))%Z in
    let q := (n / d)%Z in
    let r := (n mod d)%Z in
    if (d <? 2 * r)%Z then (q + 1)%Z
    else if (2 * r =? d)%Z then (if Z.even q then q else (q + 1)%Z)
    else q.

(** [format(f, ".2f")], and [format(f, " .2f")] when [space] is set *)
Definition format_2f (space : bool) (f : spec_float) : string :=
  let sign (s : bool) := if s then "-" else if space then " " else "" in
  match f with
  | S754_zero s => sign s +:+ "0.00"
  | S754_infinity s => sign s +:+ "inf"
  | S754_nan => sign false +:+ "nan"
  | S754_finite s m e =>
      let h := hundredths m e in
      sign s +:+ of_Z (h / 100) +:+ "." +:+ pad2 (Z.to_nat (h mod 100))
  end.

(** The local time that [time.strftime] reads, and
    [time.strftime("%Y-%m-%d %H:%M:%S")] *)
Record struct_time := {
  tm_year : nat; tm_mon : nat; tm_mday : nat;
  tm_hour : nat; tm_min : nat; tm_sec : nat
}.

Definition strftime (t : struct_time) : string :=
  of_nat (tm_year t) +:+ "-" +:+ pad2 (tm_mon t) +:+ "-" +:+ pad2 (tm_mday t)
  +:+ " " +:+ pad2 (tm_hour t) +:+ ":" +:+ pad2 (tm_min t) +:+ ":" +:+ pad2 (tm_sec t).

End Python.

(** ** pandas: frames, [to_csv], [read_csv], [mean] *)

Module Pandas.
Import Text Csv Tokenizer Python.

(** A frame: the column labels, and per row the cells pandas moved into the
    index (none with the default index) and the cells of the columns.  A frame
    built in memory holds Python values; a frame read from a file holds, cell
    by cell, the field of the file.  What pandas does after the tokenizer is
    embedded apart: the renaming of header labels in [labels_kept], the
    conversion of a field to a missing value, an integer, a boolean or a text
    in [infer_single], the mean of a column in [Series_mean].  The statements
    below say of the cells of a loaded frame only what holds after that
    conversion. *)
Record DataFrame (A : Type) := {
  columns : list string;
  index : list (list A);
  rows : list (list A)
}.
Arguments columns {A} _.
Arguments index {A} _.
Arguments rows {A} _.

(** [pd.DataFrame()] *)
Definition DataFrame_empty {A} : DataFrame A :=
  {| columns := []; index := []; rows := [] |}.

(** [pd.DataFrame([data_dict])]: one row, the keys as columns *)
Definition DataFrame_of_record (data_dict : dict) : DataFrame value :=
  {| columns := keys data_dict; index := [[]]; rows := [values data_dict] |}.

(** [len(df)] *)
Definition nrows {A} (df : DataFrame A) : nat := length (rows df).

(** [df.empty]: one of the two axes has length zero *)
Definition empty {A} (df : DataFrame A) : bool :=
  Nat.eqb (length (columns df)) 0 || Nat.eqb (nrows df) 0.

(** The position of a label among the columns *)
Fixpoint position (label : string) (labels : list string) : option nat :=
  match labels with
  | [] => None
  | l :: rest => if String.eqb l label then Some 0 else S <$> position label rest
  end.

(** [df[label]]: the cells of a column, or [None] for a KeyError *)
Definition getitem {A} (df : DataFrame A) (label : string) : option (list (option A)) :=
  (fun i => map (fun r => r !! i) (rows df)) <$> position label (columns df).

Inductive exn :=
| EmptyDataError
| ParserError
| KeyError
| FileNotFoundError.

(** [end_line] of the tokenizer counts the fields of a line against the line
    before it: from the first data line on, a shorter line is filled with
    empty fields; from the second data line on, a longer line is a
    ParserError (Expected n fields, saw m).  The count does not change how
    the following characters are read, so it is done here on the lines the
    tokenizer returns. *)
Definition fill (expected : nat) (line : list string) : list string :=
  line ++ repeat "" (expected - length line).

Fixpoint check_lines (expected : nat) (first : bool) (data : list (list string))
  : option (list (list string)) :=
  match data with
  | [] => Some []
  | line :: rest =>
      if negb first && Nat.ltb expected (length line) then None
      else
        let line' := fill expected line in
        cons line' <$> check_lines (length line') false rest
  end.

(** [pd.read_csv(path)] on the text of the file.  The first line that is not
    blank is the header.  When the first data line has more fields than the
    header, pandas takes the leading fields of every line as the index.
    The labels are the header as the file has it: they are the labels pandas
    returns when [labels_kept] holds of the header, and pandas renames the
    others (an empty label to [Unnamed: i], a repeated one with a suffix). *)
Definition read_csv (text : string) : exn + DataFrame string :=
  match tokenize_all_rows text with
  | None => inl ParserError
  | Some [] => inl EmptyDataError
  | Some (header :: data) =>
      match check_lines (length header) true data with
      | None => inl ParserError
      | Some data' =>
          let width := match data' with [] => length header | line :: _ => length line end in
          let leading := width - length header in
          inr {| columns := header;
                 index := map (take leading) data';
                 rows := map (drop leading) data' |}
      end
  end.

(** An int64 column: every field is a decimal integer in the range of int64. *)
Definition digit_value (c : ascii) : option Z :=
  let n := nat_of_ascii c in
  if Nat.leb 48 n && Nat.leb n 57 then Some (Z.of_nat (n - 48)) else None.

Fixpoint digits_value (s : string) (acc : Z) : option Z :=
  match s with
  | "" => Some acc
  | String c r =>
      match digit_value c with
      | Some d => digits_value r (10 * acc + d)%Z
      | None => None
      end
  end.

Definition int_literal (s : string) : option Z :=
  match s with
  | "" => None
  | String "-" "" => None
  | String "-" r => Z.opp <$> digits_value r 0
  | _ => digits_value s 0
  end.

Definition int64_of_field (cell : option string) : option Z :=
  match cell with
  | None => None
  | Some s =>
      match int_literal s with
      | Some z => if ((- 2 ^ 63 <=? z) && (z <? 2 ^ 63))%Z then Some z else None
      | None => None
      end
  end.

Fixpoint int64_column (cells : list (option string)) : option (list Z) :=
  match cells with
  | [] => Some []
  | c :: rest =>
      match int64_of_field c, int64_column rest with
      | Some z, Some zs => Some (z :: zs)
      | _, _ => None
      end
  end.

Definition sum_Z (xs : list Z) : Z := fold_right Z.add 0%Z xs.

(** [Series.mean()] of a column read from a file.  For an int64 column
    pandas adds the values up as float64 and divides by the count; the sum is
    exact, whatever the order of the additions, while the absolute values add
    up to at most 2^53.  The result is [None] outside that case (a column
    with a field that is not an integer, or sums beyond 2^53), which this
    development does not describe. *)
Definition Series_mean (cells : list (option string)) : option spec_float :=
  match int64_column cells with
  | Some xs =>
      if ((sum_Z (map Z.abs xs) <=? 2 ^ 53) && (Z.of_nat (length xs) <=? 2 ^ 53))%Z
      then Some (float_div (float_of_Z (sum_Z xs)) (float_of_Z (Z.of_nat (length xs))))
      else None
  | None => None
  end.

(** *** What pandas makes of the labels and of the fields

    pandas keeps the labels of a header when they are distinct and none is
    empty. *)
Fixpoint distinct (labels : list string) : bool :=
  match labels with
  | [] => true
  | label :: rest => negb (List.existsb (String.eqb label) rest) && distinct rest
  end.

Definition labels_kept (header : list string) : bool :=
  distinct header && List.forallb (fun label => negb (String.eqb label "")) header.

(** A cell of a frame that was read from a file: a missing value, or a
    scalar. *)
Inductive scalar :=
| NaN
| Scalar (v : value).

Definition is_letter (c : ascii) : bool :=
  let n := nat_of_ascii c in
  (Nat.leb 65 n && Nat.leb n 90) || (Nat.leb 97 n && Nat.leb n 122).

Definition lower_char (c : ascii) : ascii :=
  let n := nat_of_ascii c in
  if Nat.leb 65 n && Nat.leb n 90 then ascii_of_nat (n + 32) else c.

Fixpoint lower (s : string) : string :=
  match s with
  | "" => ""
  | String c r => String (lower_char c) (lower r)
  end.

(** The words that start with a letter and that pandas does not keep as
    text, in lower case: its words for a missing value, for the booleans and
    for the infinite floats. *)
Definition converted_words : list string :=
  ["na"; "n/a"; "null"; "nan"; "none"; "true"; "false"; "inf"; "infinity"].

(** A field that pandas keeps as text whatever the case of its letters: it
    starts with a letter, so it is no number, and it is none of the words
    above. *)
Definition kept_as_text (field : string) : bool :=
  match field with
  | "" => false
  | String c _ =>
      is_letter c && negb (List.existsb (String.eqb (lower field)) converted_words)
  end.

(** The cell pandas makes of the one field of a column (a frame of one row):
    the empty field is a missing value; then pandas tries int64, float64,
    bool, and keeps the field as text when all fail.  The result is [None]
    where this development does not follow pandas: floats, the other words
    for missing values and booleans, integers beyond int64. *)
Definition infer_single (field : string) : option scalar :=
  if String.eqb field "" then Some NaN
  else
    match int64_of_field (Some field) with
    | Some z => Some (Scalar (VInt z))
    | None =>
        if String.eqb field "True" then Some (Scalar (VBool true))
        else if String.eqb field "False" then Some (Scalar (VBool false))
        else if kept_as_text field then Some (Scalar (VStr field))
        else None
    end.

End Pandas.

(** ** Streamlit: the elements a rerun shows, and the script as a function

    Streamlit runs the whole script again after every interaction.  A rerun
    starts from the files and from [st.session_state] as the rerun before
    left them, and ends normally or on an exception, which Streamlit shows in
    place of the rest of the page.  The elements recorded are those that
    answer a submission or depend on the files: warnings, successes, infos
    and what the report tab writes.  The title, the headers, the
    introduction, the consent text and the task descriptions are left out. *)

Module Streamlit.
Import Pandas.

Inductive element :=
| st_warning (body : string)
| st_success (body : string)
| st_info (body : string)
| st_write (body : string)
| st_subheader (body : string)
| st_dataframe (df : DataFrame string)
| st_markdown_gif (contents : string)
| st_video (url : string).

(** The files (a path to the bytes of a regular file) and the session
    state, whose two keys hold floats.  Directories are not represented: the
    script creates the data folder before anything else, so the folder is
    there whenever a file is written. *)
Record world := {
  fs : gmap string string;
  session_state : gmap string spec_float
}.

(** How a rerun stops early: on a Python exception, or at a step of pandas
    that this development does not describe ([Series_mean] outside int64). *)
Inductive stop :=
| Raised (e : exn)
| Undescribed.

Record run (A : Type) := {
  shown : list element;
  after : world;
  result : stop + A
}.
Arguments shown {A} _.
Arguments after {A} _.
Arguments result {A} _.

Definition script (A : Type) : Type := world -> run A.

Definition ret {A} (a : A) : script A :=
  fun w => {| shown := []; after := w; result := inr a |}.

Definition bind {A B} (m : script A) (k : A -> script B) : script B :=
  fun w =>
    let r := m w in
    match result r with
    | inl e => {| shown := shown r; after := after r; result := inl e |}
    | inr a =>
        let r' := k a (after r) in
        {| shown := shown r ++ shown r'; after := after r'; result := result r' |}
    end.

Definition display (e : element) : script unit :=
  fun w => {| shown := [e]; after := w; result := inr tt |}.

Definition halt {A} (e : stop) : script A :=
  fun w => {| shown := []; after := w; result := inl e |}.

Definition raise {A} (e : exn) : script A := halt (Raised e).

Definition get_fs : script (gmap string string) :=
  fun w => {| shown := []; after := w; result := inr (fs w) |}.

Definition get_session : script (gmap string spec_float) :=
  fun w => {| shown := []; after := w; result := inr (session_state w) |}.

Definition update_fs (f : gmap string string -> gmap string string) : script unit :=
  fun w => {| shown := []; result := inr tt;
              after := {| fs := f (fs w); session_state := session_state w |} |}.

Definition update_session (f : gmap string spec_float -> gmap string spec_float) : script unit :=
  fun w => {| shown := []; result := inr tt;
              after := {| fs := fs w; session_state := f (session_state w) |} |}.

(** a value or an exception, inside a script *)
Definition returned {A} (r : exn + A) : script A :=
  match r with
  | inl e => raise e
  | inr a => ret a
  end.

Definition when (b : bool) (m : script unit) : script unit :=
  if b then m else ret tt.

End Streamlit.

Declare Scope script_scope.
Delimit Scope script_scope with script.
Notation "x <- m ;; k" := (Streamlit.bind m (fun x => k))
  (at level 100, m at next level, right associativity) : script_scope.
Notation "m ;; k" := (Streamlit.bind m (fun _ => k))
  (at level 100, right associativity) : script_scope.

Import Text Csv Tokenizer Python Pandas Streamlit.

(** ** The program

    [float_str] is the text numpy gives a float64 when [to_csv] writes it
    (the shortest decimal that reads back as the same float); the program is
    embedded for any such function. *)

Class FloatText := float_str : spec_float -> string.

Section Program.

Context `{float_text : FloatText}.

(** The text of a value in a CSV field *)
Definition str_value (v : value) : string :=
  match v with
  | VStr s => s
  | VInt z => of_Z z
  | VBool b => if b then "True" else "False"
  | VFloat f => float_str f
  end.

(** What [df.to_csv(handle, header=..., index=False)] writes *)
Definition csv_text (df : DataFrame value) (header : bool) : string :=
  (if header then writerow (columns df) else "")
  +:+ cat (map (fun row => writerow (map str_value row)) (rows df)).

Inductive open_mode := mode_w | mode_a.

(** [df.to_csv(path, mode=..., header=..., index=False)]: mode [w] truncates
    or creates the file, mode [a] writes at its end, creating it when
    missing. *)
Definition to_csv (df : DataFrame value) (path : string) (mode : open_mode)
    (header : bool) (files : gmap string string) : gmap string string :=
  match mode with
  | mode_w => <[path := csv_text df header]> files
  | mode_a => <[path := default "" (files !! path) +:+ csv_text df header]> files
  end.

(** [os.path.isfile(path)] *)
Definition isfile (path : string) (files : gmap string string) : bool :=
  match files !! path with
  | Some _ => true
  | None => false
  end.

Definition DATA_FOLDER : string := "data".
Definition CONSENT_CSV : string := DATA_FOLDER +:+ "/" +:+ "consent_data.csv".
Definition DEMOGRAPHIC_CSV : string := DATA_FOLDER +:+ "/" +:+ "demographic_data.csv".
Definition TASK_CSV : string := DATA_FOLDER +:+ "/" +:+ "task_data.csv".
Definition EXIT_CSV : string := DATA_FOLDER +:+ "/" +:+ "exit_data.csv".
Definition GIF : string :=
  "secret/124699-631359E2-3A45-42EA-A8D0-9BBE7331CFAE-0-1540677033.gif".

Definition save_to_csv (data_dict : dict) (csv_file : string)
    (files : gmap string string) : gmap string string :=
  let df_new := DataFrame_of_record data_dict in
  if negb (isfile csv_file files) then
    to_csv df_new csv_file mode_w true files
  else
    to_csv df_new csv_file mode_a false files.

Definition load_from_csv (csv_file : string) (files : gmap string string)
  : exn + DataFrame string :=
  match files !! csv_file with
  | Some text => read_csv text
  | None => inr DataFrame_empty
  end.

(** *** The widgets

    A rerun is started by one interaction, so at most one button is pressed
    in it.  The bug-report widgets exist only while the bug checkbox is
    checked: [traceback], [bug_desc] and [bug_imp] are read only under
    [bugs]. *)

Inductive button :=
| Submit_Consent
| Submit_Demographics
| Start_Task_Timer
| Stop_Task_Timer
| Save_Task_Results
| Submit_Exit_Questionnaire.

Inductive familiarity_option := Not_Familiar | Somewhat_Familiar | Very_Familiar.
Inductive task_option := Task_1 | Task_2 | Task_3.
Inductive success_option := Yes | No | Partial.

Definition familiarity_text (f : familiarity_option) : string :=
  match f with
  | Not_Familiar => "Not Familiar"
  | Somewhat_Familiar => "Somewhat Familiar"
  | Very_Familiar => "Very Familiar"
  end.

Definition task_text (t : task_option) : string :=
  match t with
  | Task_1 => "Task 1: Create a team of 6 Pokémon"
  | Task_2 => "Task 2: Attempt to edit your team by adding/removing Pokémon"
  | Task_3 => "Task 3: Use all features of the application without running into issues"
  end.

Definition success_text (s : success_option) : string :=
  match s with
  | Yes => "Yes"
  | No => "No"
  | Partial => "Partial"
  end.

Record widgets := {
  consent_given : bool;
  name : string;
  age : Z;
  occupation : string;
  familiarity : familiarity_option;
  selected_task : task_option;
  success : success_option;
  bugs : bool;
  traceback : string;
  bug_desc : string;
  bug_imp : Z;
  notes : string;
  satisfaction : Z;
  difficulty : Z;
  open_feedback : string;
  pressed : option button
}.

Definition button_eqb (a b : button) : bool :=
  match a, b with
  | Submit_Consent, Submit_Consent
  | Submit_Demographics, Submit_Demographics
  | Start_Task_Timer, Start_Task_Timer
  | Stop_Task_Timer, Stop_Task_Timer
  | Save_Task_Results, Save_Task_Results
  | Submit_Exit_Questionnaire, Submit_Exit_Questionnaire => true
  | _, _ => false
  end.

(** [st.button(label)] and [st.form_submit_button(label)] *)
Definition st_button (i : widgets) (b : button) : bool :=
  match pressed i with
  | Some b' => button_eqb b b'
  | None => false
  end.

(** The clock of a rerun: what [time.strftime] and [time.time()] read. *)
Record clock := {
  localtime : struct_time;
  time : spec_float
}.

Open Scope script_scope.

(** *** The records *)

Definition consent_record (i : widgets) (c : clock) : dict :=
  [ ("timestamp", VStr (strftime (localtime c)));
    ("consent_given", VBool (consent_given i)) ].

Definition demographic_record (i : widgets) (c : clock) : dict :=
  [ ("timestamp", VStr (strftime (localtime c)));
    ("name", VStr (name i));
    ("age", VInt (age i));
    ("occupation", VStr (occupation i));
    ("familiarity", VStr (familiarity_text (familiarity i))) ].

(** [duration_val if duration_val else ""], where [duration_val] is
    [st.session_state.get("task_duration", None)] *)
Definition duration_field (duration_val : option spec_float) : value :=
  match duration_val with
  | Some d => if float_truthy d then VFloat d else VStr ""
  | None => VStr ""
  end.

Definition task_record (i : widgets) (c : clock) (duration_val : option spec_float) : dict :=
  [ ("timestamp", VStr (strftime (localtime c)));
    ("task_name", VStr (task_text (selected_task i)));
    ("success", VStr (success_text (success i)));
    ("duration_seconds", duration_field duration_val);
    ("bug", if bugs i then VStr (traceback i) else VStr "");
    ("bug_description", if bugs i then VStr (bug_desc i) else VStr "");
    ("bug_impact", if bugs i then VInt (bug_imp i) else VStr "");
    ("notes", VStr (notes i)) ].

Definition exit_record (i : widgets) (c : clock) : dict :=
  [ ("timestamp", VStr (strftime (localtime c)));
    ("satisfaction", VInt (satisfaction i));
    ("difficulty", VInt (difficulty i));
    ("open_feedback", VStr (open_feedback i)) ].

(** *** The tabs *)

Definition consent_tab (i : widgets) (c : clock) : script unit :=
  when (st_button i Submit_Consent)
    (if negb (consent_given i) then
       display (st_warning "You must agree to the consent terms before proceeding.")
     else
       display (st_success "Your consent has been recorded. Thank you!");;
       update_fs (save_to_csv (consent_record i c) CONSENT_CSV)).

Definition demographics_tab (i : widgets) (c : clock) : script unit :=
  when (st_button i Submit_Demographics)
    (if (age i <? 18)%Z then
       display (st_warning "You must be 18 or older to fill this form out.")
     else if String.eqb (occupation i) "" then
       display (st_warning "Please fill out the occupation field.")
     else
       update_fs (save_to_csv (demographic_record i c) DEMOGRAPHIC_CSV);;
       display (st_success "Demographic data saved.")).

Definition tasks_tab (i : widgets) (c : clock) : script unit :=
  when (st_button i Start_Task_Timer)
    (update_session (insert "start_time" (time c));;
     display (st_info "Timer has started. Please complete your task and then click the 'Stop Task Timer' button to stop."));;
  session <- get_session;;
  when (st_button i Stop_Task_Timer)
    (match session !! "start_time" with
     | Some start_time =>
         let duration := float_sub (time c) start_time in
         display (st_success ("Task completed in " +:+ format_2f true duration +:+ " seconds!"));;
         update_session (insert "task_duration" duration)
     | None => ret tt
     end);;
  when (st_button i Save_Task_Results)
    (session <- get_session;;
     let duration_val := session !! "task_duration" in
     update_fs (save_to_csv (task_record i c duration_val) TASK_CSV);;
     display (st_success "Task data saved.");;
     update_session (delete "start_time");;
     update_session (delete "task_duration")).

Definition exit_tab (i : widgets) (c : clock) : script unit :=
  when (st_button i Submit_Exit_Questionnaire)
    (update_fs (save_to_csv (exit_record i c) EXIT_CSV);;
     files <- get_fs;;
     match files !! GIF with
     | None => raise FileNotFoundError
     | Some contents =>
         display (st_success "Exit questionnaire data saved. (was feeling silly, pls dont mark me down for this T^T)");;
         display (st_markdown_gif contents);;
         display (st_video "https://www.youtube.com/watch?v=NUYvbT6vTPs")
     end).

(** One section of the report: the table, or a note that there is none.
    The source writes these lines out once per file. *)
Definition report_section (title nothing csv_file : string) : script (DataFrame string) :=
  display (st_write title);;
  files <- get_fs;;
  df <- returned (load_from_csv csv_file files);;
  (if negb (empty df) then display (st_dataframe df) else display (st_info nothing));;
  ret df.

(** [series.mean()] on [df[label]] *)
Definition column_mean (df : DataFrame string) (label : string) : script spec_float :=
  match getitem df label with
  | None => raise KeyError
  | Some cells =>
      match Series_mean cells with
      | Some m => ret m
      | None => halt Undescribed
      end
  end.

Definition report_tab : script unit :=
  consent_df <- report_section "**Consent Data**" "No consent data available yet." CONSENT_CSV;;
  demographic_df <- report_section "**Demographic Data**" "No demographic data available yet." DEMOGRAPHIC_CSV;;
  task_df <- report_section "**Task Performance Data**" "No task data available yet." TASK_CSV;;
  exit_df <- report_section "**Exit Questionnaire Data**" "No exit questionnaire data available yet." EXIT_CSV;;
  if negb (empty exit_df) then
    display (st_subheader "Exit Questionnaire Averages");;
    avg_satisfaction <- column_mean exit_df "satisfaction";;
    avg_difficulty <- column_mean exit_df "difficulty";;
    display (st_write ("**Average Satisfaction**: " +:+ format_2f false avg_satisfaction));;
    display (st_write ("**Average Difficulty**: " +:+ format_2f false avg_difficulty))
  else ret tt.

Definition main (i : widgets) (c : clock) : script unit :=
  consent_tab i c;;
  demographics_tab i c;;
  tasks_tab i c;;
  exit_tab i c;;
  report_tab.

(** * The vocabulary of the statements *)

(** ** Rows that survive a round trip

    A line made of blanks only is skipped by the tokenizer, so a row is lost
    when it is written as such a line: a row with no field, or with one field
    made of spaces and tabs.  A carriage return is not quoted by the writer
    and ends a line for the tokenizer. *)

Definition no_CR (field : string) : bool :=
  Text.forallb (fun c => negb (IS_CARRIAGE c)) field.

Definition blank (field : string) : bool :=
  negb (String.eqb field "") && Text.forallb IS_WHITESPACE field.

Definition visible (row : list string) : bool :=
  match row with
  | [] => false
  | [field] => negb (blank field)
  | _ => true
  end.

Definition sound_row (row : list string) : bool :=
  visible row && List.forallb no_CR row.

(** a character the writer leaves bare and the tokenizer takes as data *)
Definition plain (c : ascii) : bool := negb (is_special c) && negb (IS_CARRIAGE c).

(** What follows a field: a comma opens the next field, a line feed closes
    the line. *)
Definition after_field (sep : ascii) (field : string) (fs : list string)
    (ls : list (list string)) : parser_t :=
  if Ascii.eqb sep COMMA
  then {| state := START_FIELD; word := ""; fields := (fs ++ [field])%list; lines := ls |}
  else {| state := START_RECORD; word := ""; fields := []; lines := (ls ++ [fs ++ [field]])%list |}.

Definition is_separator (sep : ascii) : Prop := sep = COMMA \/ sep = LF.

(** ** The characters of numbers and of time stamps *)

Definition is_digit (c : ascii) : bool :=
  Nat.leb 48 (nat_of_ascii c) && Nat.leb (nat_of_ascii c) 57.

Definition stamp_char (c : ascii) : bool :=
  is_digit c || Ascii.eqb c "-" || Ascii.eqb c ":" || Ascii.eqb c " ".

(** ** Scripts that only read *)

Definition read_only {A} (m : script A) : Prop := forall w, after (m w) = w.

(** ** The effect of a rerun *)

(** The line [to_csv] writes for the values of a record *)
Definition value_row (data_dict : dict) : list string := map str_value (values data_dict).

(** The values that come back from a file as they went in: an integer of
    int64, a boolean, a text that pandas keeps as text.  (An empty text comes
    back as a missing value, a text of digits as an integer, a float as the
    float its text reads as.) *)
Definition read_back_as_written (v : value) : bool :=
  match v with
  | VStr s => kept_as_text s
  | VInt z => ((- 2 ^ 63 <=? z) && (z <? 2 ^ 63))%Z
  | VBool _ => true
  | VFloat _ => false
  end.

(** A run that this development describes to its end: it ends normally or
    on a Python exception. *)
Definition described {A} (r : run A) : Prop := result r <> inl Undescribed.

Definition with_fs (files : gmap string string) (w : world) : world :=
  {| fs := files; session_state := session_state w |}.

Definition with_session (session : gmap string spec_float) (w : world) : world :=
  {| fs := fs w; session_state := session |}.

(** The effect of one rerun on the files and on the session state *)
Definition transition (i : widgets) (c : clock) (w : world) : world :=
  match pressed i with
  | Some Submit_Consent =>
      if consent_given i
      then with_fs (save_to_csv (consent_record i c) CONSENT_CSV (fs w)) w
      else w
  | Some Submit_Demographics =>
      if (age i <? 18)%Z || String.eqb (occupation i) ""
      then w
      else with_fs (save_to_csv (demographic_record i c) DEMOGRAPHIC_CSV (fs w)) w
  | Some Start_Task_Timer =>
      with_session (<["start_time" := time c]> (session_state w)) w
  | Some Stop_Task_Timer =>
      match session_state w !! "start_time" with
      | Some start_time =>
          with_session (<["task_duration" := float_sub (time c) start_time]> (session_state w)) w
      | None => w
      end
  | Some Save_Task_Results =>
      {| fs := save_to_csv (task_record i c (session_state w !! "task_duration"))
                 TASK_CSV (fs w);
         session_state := delete "task_duration" (delete "start_time" (session_state w)) |}
  | Some Submit_Exit_Questionnaire =>
      with_fs (save_to_csv (exit_record i c) EXIT_CSV (fs w)) w
  | None => w
  end.

(** The effect of the task tab, whatever buttons it sees pressed *)
Definition tasks_after (i : widgets) (c : clock) (w : world) : world :=
  let w1 :=
    if st_button i Start_Task_Timer
    then with_session (<["start_time" := time c]> (session_state w)) w
    else w in
  let w2 :=
    if st_button i Stop_Task_Timer then
      match session_state w1 !! "start_time" with
      | Some start_time =>
          with_session (<["task_duration" := float_sub (time c) start_time]> (session_state w1)) w1
      | None => w1
      end
    else w1 in
  if st_button i Save_Task_Results then
    {| fs := save_to_csv (task_record i c (session_state w2 !! "task_duration")) TASK_CSV (fs w2);
       session_state := delete "task_duration" (delete "start_time" (session_state w2)) |}
  else w2.

(** ** The row store *)

(** Several appends to one file, in order *)
Definition appends (records : list dict) (csv_file : string)
    (files : gmap string string) : gmap string string :=
  fold_left (fun files' data_dict => save_to_csv data_dict csv_file files') records files.

(** ** The worlds the program reaches

    The data folder starts without the four files; every rerun goes on from
    the world the rerun before left. *)

Definition fresh (w : world) : Prop :=
  fs w !! CONSENT_CSV = None /\ fs w !! DEMOGRAPHIC_CSV = None
  /\ fs w !! TASK_CSV = None /\ fs w !! EXIT_CSV = None.

Inductive reachable : world -> Prop :=
| reachable_fresh w : fresh w -> reachable w
| reachable_rerun i c w : reachable w -> reachable (after (main i c w)).

(** The consent file, as the consent tab writes it *)
Definition consent_header : list string := ["timestamp"; "consent_given"].

Definition consent_row (t : struct_time) : list string := [strftime t; "True"].

Definition consent_file (stamps : list struct_time) : string :=
  writerow consent_header +:+ cat (map (fun t => writerow (consent_row t)) stamps).

Definition consent_invariant (files : gmap string string) : Prop :=
  files !! CONSENT_CSV = None
  \/ exists stamps, files !! CONSENT_CSV = Some (consent_file stamps).

(** ** What a rerun shows *)

(** Every element a script shows satisfies [P]. *)
Definition shows_only (P : element -> Prop) {A} (m : script A) : Prop :=
  forall w e, In e (shown (m w)) -> P e.

Definition not_warning (e : element) : Prop :=
  match e with
  | st_warning _ => False
  | _ => True
  end.

(** The demographic record and its line in the file *)
Definition demographic_header : list string :=
  ["timestamp"; "name"; "age"; "occupation"; "familiarity"].

Definition demographic_row (i : widgets) (c : clock) : list string :=
  [strftime (localtime c); name i; of_Z (age i); occupation i;
   familiarity_text (familiarity i)].

(** ** The task record *)

Definition task_header : list string :=
  ["timestamp"; "task_name"; "success"; "duration_seconds";
   "bug"; "bug_description"; "bug_impact"; "notes"].

(** ** The report *)

(** Several reruns in a row *)
Definition reruns (inputs : list (widgets * clock)) (w : world) : world :=
  fold_left (fun w' ic => after (main (fst ic) (snd ic) w')) inputs w.

(** An exit submission: the exit form is submitted, the two sliders are on
    their scale from 1 to 5, and the feedback holds no carriage return. *)
Definition on_scale (z : Z) : Prop := (1 <= z <= 5)%Z.

Definition exit_submission (ic : widgets * clock) : Prop :=
  pressed (fst ic) = Some Submit_Exit_Questionnaire
  /\ on_scale (satisfaction (fst ic)) /\ on_scale (difficulty (fst ic))
  /\ no_CR (open_feedback (fst ic)) = true.

Definition exit_header : list string :=
  ["timestamp"; "satisfaction"; "difficulty"; "open_feedback"].

Definition exit_row (ic : widgets * clock) : list string :=
  [strftime (localtime (snd ic)); of_Z (satisfaction (fst ic));
   of_Z (difficulty (fst ic)); open_feedback (fst ic)].

Definition exit_file (inputs : list (widgets * clock)) : string :=
  writerow exit_header +:+ cat (map (fun ic => writerow (exit_row ic)) inputs).

Definition exit_frame (inputs : list (widgets * clock)) : DataFrame string :=
  {| columns := exit_header;
     index := map (fun _ => []) inputs;
     rows := map exit_row inputs |}.

(** The mean pandas computes for the integers [xs] *)
Definition mean_of (xs : list Z) : spec_float :=
  float_div (float_of_Z (sum_Z xs)) (float_of_Z (Z.of_nat (length xs))).

(** The exit file after the exit submissions [inputs], missing when there
    was none *)
Definition exit_contents (inputs : list (widgets * clock)) : option string :=
  match inputs with
  | [] => None
  | _ => Some (exit_file inputs)
  end.

(** The elements one section of the report can show *)
Definition section_element (title : string) (e : element) : Prop :=
  match e with
  | st_write body => body = title
  | st_dataframe _ | st_info _ => True
  | _ => False
  end.

Definition section_titles : list string :=
  ["**Consent Data**"; "**Demographic Data**"; "**Task Performance Data**";
   "**Exit Questionnaire Data**"].

(** An average the report writes is the mean of a column of the exit frame. *)
Definition average_line (df : DataFrame string) (text : string) : Prop :=
  exists cells m,
    Series_mean cells = Some m
    /\ ((getitem df "satisfaction" = Some cells
         /\ text = "**Average Satisfaction**: " +:+ format_2f false m)
        \/ (getitem df "difficulty" = Some cells
            /\ text = "**Average Difficulty**: " +:+ format_2f false m)).

(** What one section of the report shows for a frame *)
Definition section_shown (title nothing : string) (df : DataFrame string) : list element :=
  [st_write title; if negb (empty df) then st_dataframe df else st_info nothing].

Definition sections_shown (consent_df demographic_df task_df exit_df : DataFrame string)
  : list element :=
  (section_shown "**Consent Data**" "No consent data available yet." consent_df
   ++ section_shown "**Demographic Data**" "No demographic data available yet." demographic_df
   ++ section_shown "**Task Performance Data**" "No task data available yet." task_df
   ++ section_shown "**Exit Questionnaire Data**" "No exit questionnaire data available yet."
        exit_df)%list.

Definition averages_shown (avg_satisfaction avg_difficulty : spec_float) : list element :=
  [st_subheader "Exit Questionnaire Averages";
   st_write ("**Average Satisfaction**: " +:+ format_2f false avg_satisfaction);
   st_write ("**Average Difficulty**: " +:+ format_2f false avg_difficulty)].

Definition satisfactions (inputs : list (widgets * clock)) : list Z :=
  map (fun ic => satisfaction (fst ic)) inputs.

Definition difficulties (inputs : list (widgets * clock)) : list Z :=
  map (fun ic => difficulty (fst ic)) inputs.

(** ** What a rerun persists *)

(** The file a button writes to, if it writes to one *)
Definition file_of_button (b : button) : option string :=
  match b with
  | Submit_Consent => Some CONSENT_CSV
  | Submit_Demographics => Some DEMOGRAPHIC_CSV
  | Save_Task_Results => Some TASK_CSV
  | Submit_Exit_Questionnaire => Some EXIT_CSV
  | Start_Task_Timer | Stop_Task_Timer => None
  end.

Definition file_of_rerun (i : widgets) : option string :=
  match pressed i with
  | Some b => file_of_button b
  | None => None
  end.

(** The file a rerun saves to and the record it saves there, if any *)
Definition persisted (i : widgets) (c : clock) (w : world) : option (string * dict) :=
  match pressed i with
  | Some Submit_Consent =>
      if consent_given i then Some (CONSENT_CSV, consent_record i c) else None
  | Some Submit_Demographics =>
      if (age i <? 18)%Z || String.eqb (occupation i) "" then None
      else Some (DEMOGRAPHIC_CSV, demographic_record i c)
  | Some Save_Task_Results =>
      Some (TASK_CSV, task_record i c (session_state w !! "task_duration"))
  | Some Submit_Exit_Questionnaire => Some (EXIT_CSV, exit_record i c)
  | _ => None
  end.

(** A file of one section: the header line, then the lines of a table *)
Definition section_file (header : list string) (table : list (list string)) : string :=
  writerow header +:+ cat (map writerow table).

(** A data file, when it is there, is the header of its section followed by
    at least one row, every row as long as the header. *)
Definition section_invariant (header : list string) (contents : option string) : Prop :=
  match contents with
  | None => True
  | Some text =>
      exists table,
        table <> [] /\ text = section_file header table
        /\ Forall (fun row => length row = length header) table
  end.

(** A demographic submission that passes the two checks *)
Definition accepted (ic : widgets * clock) : bool :=
  match pressed (fst ic) with
  | Some Submit_Demographics =>
      negb ((age (fst ic) <? 18)%Z || String.eqb (occupation (fst ic)) "")
  | _ => false
  end.

Definition demographic_contents (inputs : list (widgets * clock)) : option string :=
  match inputs with
  | [] => None
  | _ => Some (section_file demographic_header
                 (map (fun ic => demographic_row (fst ic) (snd ic)) inputs))
  end.

(** A character of a line that the tokenizer skips as blank *)
Definition blank_char (c : ascii) : bool :=
  IS_TERMINATOR c || IS_CARRIAGE c || IS_WHITESPACE c.

(** What the exit tab shows once the GIF is read *)
Definition exit_shown (contents : string) : list element :=
  [st_success "Exit questionnaire data saved. (was feeling silly, pls dont mark me down for this T^T)";
   st_markdown_gif contents;
   st_video "https://www.youtube.com/watch?v=NUYvbT6vTPs"].

(** The tokenizer between lines, with nothing read so far *)
Definition skipping (p : parser_t) : Prop :=
  (state p = START_RECORD \/ state p = WHITESPACE_LINE \/ state p = EAT_CRNL_NOP)
  /\ fields p = [] /\ lines p = [].

End Program.

(** * Concrete data for the runs *)

(** A text for floats in the runs below: two decimals.  (numpy prints the
    shortest decimal that reads back; no statement below rests on it.) *)
Definition two_decimals : FloatText := fun f => format_2f false f.

Definition empty_world : world := {| fs := ∅; session_state := ∅ |}.

Definition noon : clock :=
  {| localtime := {| tm_year := 2025; tm_mon := 3; tm_mday := 14;
                     tm_hour := 12; tm_min := 0; tm_sec := 0 |};
     time := float_of_Z 1741953600 |}.

Definition form (b : option button) : widgets :=
  {| consent_given := true; name := "Ada"; age := 30; occupation := "Engineer";
     familiarity := Somewhat_Familiar; selected_task := Task_1; success := Yes;
     bugs := true; traceback := "KeyError: 'pikachu'"; bug_desc := "search box";
     bug_imp := 4; notes := "none"; satisfaction := 4; difficulty := 2;
     open_feedback := "fine, thanks"; pressed := b |}.

Definition second_form (b : option button) : widgets :=
  {| consent_given := false; name := ""; age := 17; occupation := "";
     familiarity := Not_Familiar; selected_task := Task_2; success := Partial;
     bugs := false; traceback := "left over"; bug_desc := "left over";
     bug_imp := 5; notes := ""; satisfaction := 2; difficulty := 5;
     open_feedback := ""; pressed := b |}.

Definition pet_record : dict := [("name", VStr "Rex"); ("legs", VInt 4)].

Definition pet_files : gmap string string :=
  {[ "data/pets.csv" := writerow ["name"; "legs"] +:+ writerow ["Tom"; "4"] ]}.

Definition pet_world : world := {| fs := pet_files; session_state := ∅ |}.

Definition owner_record : dict := [("owner", VStr "Ada")].

(** The timer started and stopped at the same reading of the clock *)
Definition timed_world : world :=
  after (@main two_decimals (form (Some Stop_Task_Timer)) noon
           (after (@main two_decimals (form (Some Start_Task_Timer)) noon empty_world))).

(** A later reading of the clock *)
Definition later : clock :=
  {| localtime := {| tm_year := 2025; tm_mon := 3; tm_mday := 14;
                     tm_hour := 12; tm_min := 0; tm_sec := 7 |};
     time := float_of_Z 1741953607 |}.

(** A consent file that holds an empty line and a line of one space *)
Definition blank_world : world :=
  {| fs := {[ CONSENT_CSV := String LF (String SPACE (String LF "")) ]};
     session_state := ∅ |}.

(** An exit file written under other names *)
Definition mislabelled_world : world :=
  {| fs := {[ EXIT_CSV := writerow ["name"; "legs"] +:+ writerow ["Tom"; "4"] ]};
     session_state := ∅ |}.

(** A session that holds a duration of seven seconds *)
Definition measured_world : world :=
  {| fs := ∅; session_state := {[ "task_duration" := float_of_Z 7 ]} |}.

(** * Properties *)

Section Facts.

Context `{float_text : FloatText}.

(** ** Facts on texts *)

Lemma append_cons (c : ascii) (a b : string) : String c a +:+ b = String c (a +:+ b).
Proof. reflexivity. Qed.

Lemma append_nil_r (s : string) : s +:+ "" = s.
Proof. induction s as [|c s IH]; [reflexivity | now rewrite append_cons, IH]. Qed.

Lemma append_assoc (a b c : string) : (a +:+ b) +:+ c = a +:+ (b +:+ c).
Proof. induction a as [|x a IH]; [reflexivity | now rewrite !append_cons, IH]. Qed.

Lemma append_length (a b : string) :
  String.length (a +:+ b) = String.length a + String.length b.
Proof. induction a as [|x a IH]; [reflexivity | rewrite append_cons; simpl; now rewrite IH]. Qed.

Lemma append_grows (a b : string) : b <> "" -> a +:+ b <> a.
Proof.
  intros Hb Heq. apply (f_equal String.length) in Heq.
  rewrite append_length in Heq. destruct b; [congruence | simpl in Heq; lia].
Qed.

Lemma cat_app (xs ys : list string) : cat (xs ++ ys) = cat xs +:+ cat ys.
Proof.
  induction xs as [|x xs IH]; simpl; [reflexivity|].
  now rewrite IH, append_assoc.
Qed.

Lemma forallb_append (p : ascii -> bool) (a b : string) :
  Text.forallb p (a +:+ b) = Text.forallb p a && Text.forallb p b.
Proof.
  induction a as [|x a IH]; [reflexivity|].
  rewrite append_cons. simpl. now rewrite IH, andb_assoc.
Qed.

Lemma is_prefix_append (a b : string) : is_prefix a (a +:+ b).
Proof. now exists b. Qed.

(** ** The tokenizer reads back what the writer wrote *)

Lemma tokenize_bytes_app (a b : string) (p : parser_t) :
  tokenize_bytes (a +:+ b) p = tokenize_bytes b (tokenize_bytes a p).
Proof.
  revert p. induction a as [|c a IH]; intros p; [reflexivity|].
  rewrite append_cons. simpl. apply IH.
Qed.

Lemma plain_inv (c : ascii) :
  plain c = true ->
  IS_TERMINATOR c = false /\ IS_CARRIAGE c = false /\ IS_QUOTE c = false /\ IS_DELIMITER c = false.
Proof.
  unfold plain, is_special, IS_TERMINATOR, IS_CARRIAGE, IS_QUOTE, IS_DELIMITER.
  destruct (Ascii.eqb c COMMA), (Ascii.eqb c QUOTE), (Ascii.eqb c LF), (Ascii.eqb c CR);
    simpl; intros H; try discriminate H; repeat split; reflexivity.
Qed.

Lemma bare_field_plain (field : string) :
  needs_quotes field = false -> no_CR field = true -> Text.forallb plain field = true.
Proof.
  unfold needs_quotes, Text.existsb, no_CR. intros Hq. apply negb_false_iff in Hq.
  revert Hq. induction field as [|c r IH]; simpl; [reflexivity|].
  intros Hq Hc. apply andb_true_iff in Hq as [Hq1 Hq2]. apply andb_true_iff in Hc as [Hc1 Hc2].
  rewrite IH by assumption. unfold plain. now rewrite Hq1, Hc1.
Qed.

Lemma in_field_plain (c : ascii) (p : parser_t) :
  plain c = true -> in_field c p = PUSH_CHAR c (set_state IN_FIELD p).
Proof.
  intros H. apply plain_inv in H as (H1 & H2 & _ & H4).
  unfold in_field. now rewrite H1, H2, H4.
Qed.

Lemma start_field_plain (c : ascii) (p : parser_t) :
  plain c = true -> start_field c p = PUSH_CHAR c (set_state IN_FIELD p).
Proof.
  intros H. apply plain_inv in H as (H1 & H2 & H3 & H4).
  unfold start_field. now rewrite H1, H2, H3, H4.
Qed.

(** Bare characters inside a field are appended to it. *)
Lemma tokenize_in_field (s w : string) (fs : list string) (ls : list (list string)) :
  Text.forallb plain s = true ->
  tokenize_bytes s {| state := IN_FIELD; word := w; fields := fs; lines := ls |}
  = {| state := IN_FIELD; word := w +:+ s; fields := fs; lines := ls |}.
Proof.
  revert w. induction s as [|c r IH]; intros w H; simpl.
  - now rewrite append_nil_r.
  - simpl in H. apply andb_true_iff in H as [Hc Hr].
    unfold tokenize_byte; simpl. rewrite in_field_plain by assumption.
    unfold PUSH_CHAR, set_state; simpl. rewrite IH by assumption.
    now rewrite append_assoc.
Qed.

(** Inside quotes every character is data, and a doubled quote is one quote. *)
Lemma tokenize_quoted (s w : string) (fs : list string) (ls : list (list string)) :
  tokenize_bytes (double_quotes s)
    {| state := IN_QUOTED_FIELD; word := w; fields := fs; lines := ls |}
  = {| state := IN_QUOTED_FIELD; word := w +:+ s; fields := fs; lines := ls |}.
Proof.
  revert w. induction s as [|c r IH]; intros w; simpl.
  - now rewrite append_nil_r.
  - destruct (Ascii.eqb c QUOTE) eqn:Hc.
    + apply Ascii.eqb_eq in Hc. subst c. simpl.
      unfold tokenize_byte at 2; simpl. unfold tokenize_byte at 1; simpl.
      unfold PUSH_CHAR, set_state; simpl. rewrite IH. now rewrite append_assoc.
    + simpl. unfold tokenize_byte; simpl. unfold IS_QUOTE. rewrite Hc.
      unfold PUSH_CHAR; simpl. rewrite IH. now rewrite append_assoc.
Qed.

Lemma after_field_comma field fs ls :
  after_field COMMA field fs ls
  = {| state := START_FIELD; word := ""; fields := (fs ++ [field])%list; lines := ls |}.
Proof. reflexivity. Qed.

Lemma in_field_separator sep w fs ls :
  is_separator sep ->
  in_field sep {| state := IN_FIELD; word := w; fields := fs; lines := ls |}
  = after_field sep w fs ls.
Proof. intros [-> | ->]; reflexivity. Qed.

Lemma tokenize_quoted_field field sep st fs ls :
  is_separator sep -> st = START_FIELD \/ st = START_RECORD ->
  tokenize_bytes (char QUOTE +:+ double_quotes field +:+ char QUOTE +:+ char sep)
    {| state := st; word := ""; fields := fs; lines := ls |}
  = after_field sep field fs ls.
Proof.
  intros Hsep Hst.
  assert (tokenize_byte {| state := st; word := ""; fields := fs; lines := ls |} QUOTE
          = {| state := IN_QUOTED_FIELD; word := ""; fields := fs; lines := ls |}) as Hq
    by (destruct Hst as [-> | ->]; reflexivity).
  change (char QUOTE +:+ double_quotes field +:+ char QUOTE +:+ char sep)
    with (String QUOTE (double_quotes field +:+ char QUOTE +:+ char sep)).
  cbn [tokenize_bytes]. rewrite Hq, tokenize_bytes_app, tokenize_quoted. simpl.
  destruct Hsep as [-> | ->]; reflexivity.
Qed.

Lemma tokenize_field field sep fs ls :
  is_separator sep -> no_CR field = true ->
  tokenize_bytes (write_field field +:+ char sep)
    {| state := START_FIELD; word := ""; fields := fs; lines := ls |}
  = after_field sep field fs ls.
Proof.
  intros Hsep Hcr. unfold write_field.
  destruct (needs_quotes field) eqn:Hq.
  - rewrite !append_assoc. apply tokenize_quoted_field; auto.
  - pose proof (bare_field_plain field Hq Hcr) as Hp.
    destruct field as [|c r].
    + destruct Hsep as [-> | ->]; reflexivity.
    + simpl in Hp. apply andb_true_iff in Hp as [Hc Hr].
      simpl. unfold tokenize_byte at 1; simpl. rewrite start_field_plain by assumption.
      unfold PUSH_CHAR, set_state; simpl.
      rewrite tokenize_bytes_app, tokenize_in_field by assumption. simpl.
      unfold tokenize_byte; simpl. now apply in_field_separator.
Qed.

(** At the start of a line, blanks are held back until the line shows
    something else. *)
Lemma tokenize_blanks (s w : string) sep fs ls :
  is_separator sep -> Text.forallb plain s = true ->
  (sep = LF -> Text.forallb IS_WHITESPACE s = false) ->
  tokenize_bytes (s +:+ char sep)
    {| state := WHITESPACE_LINE; word := w; fields := fs; lines := ls |}
  = after_field sep (w +:+ s) fs ls.
Proof.
  intros Hsep. revert w. induction s as [|c r IH]; intros w Hp Hb.
  - destruct Hsep as [-> | ->].
    + rewrite append_nil_r. reflexivity.
    + specialize (Hb eq_refl). discriminate Hb.
  - simpl in Hp. apply andb_true_iff in Hp as [Hc Hr].
    rewrite append_cons. simpl. unfold tokenize_byte at 1; simpl.
    destruct (plain_inv c Hc) as (H1 & H2 & _ & _). rewrite H1, H2.
    destruct (IS_WHITESPACE c) eqn:Hw.
    + unfold PUSH_CHAR; simpl. rewrite IH; [| assumption |].
      * unfold char. now rewrite append_assoc.
      * intros Hs. specialize (Hb Hs). simpl in Hb. now rewrite Hw in Hb.
    + rewrite in_field_plain by assumption. unfold PUSH_CHAR, set_state; simpl.
      rewrite tokenize_bytes_app, tokenize_in_field by assumption. simpl.
      unfold tokenize_byte; simpl. rewrite in_field_separator by assumption.
      unfold char. now rewrite append_assoc.
Qed.

Lemma tokenize_first_field field sep ls :
  is_separator sep -> no_CR field = true ->
  (sep = LF -> field <> "" /\ blank field = false) ->
  tokenize_bytes (write_field field +:+ char sep)
    {| state := START_RECORD; word := ""; fields := []; lines := ls |}
  = after_field sep field [] ls.
Proof.
  intros Hsep Hcr Hb. unfold write_field.
  destruct (needs_quotes field) eqn:Hq.
  - rewrite !append_assoc. apply tokenize_quoted_field; auto.
  - pose proof (bare_field_plain field Hq Hcr) as Hp.
    destruct field as [|c r].
    + destruct Hsep as [-> | ->]; [reflexivity|].
      destruct (Hb eq_refl) as [Hne _]. now contradiction Hne.
    + simpl in Hp. apply andb_true_iff in Hp as [Hc Hr].
      rewrite append_cons. simpl. unfold tokenize_byte at 1; simpl.
      unfold start_record.
      destruct (plain_inv c Hc) as (H1 & H2 & _ & _). rewrite H1, H2.
      destruct (IS_WHITESPACE c) eqn:Hw.
      * unfold PUSH_CHAR, set_state; simpl.
        rewrite tokenize_blanks; [reflexivity | assumption | assumption |].
        intros Hs. destruct (Hb Hs) as [_ Hbl].
        unfold blank in Hbl. simpl in Hbl. now rewrite Hw in Hbl.
      * rewrite start_field_plain by assumption. unfold PUSH_CHAR, set_state; simpl.
        rewrite tokenize_bytes_app, tokenize_in_field by assumption. simpl.
        unfold tokenize_byte; simpl. now apply in_field_separator.
Qed.

Lemma tokenize_fields (rest fs : list string) ls :
  rest <> [] -> List.forallb no_CR rest = true ->
  tokenize_bytes (join (char COMMA) (map write_field rest) +:+ char LF)
    {| state := START_FIELD; word := ""; fields := fs; lines := ls |}
  = {| state := START_RECORD; word := ""; fields := []; lines := (ls ++ [fs ++ rest])%list |}.
Proof.
  revert fs. induction rest as [|f rest IH]; intros fs Hne Hcr; [congruence|].
  simpl in Hcr. apply andb_true_iff in Hcr as [Hf Hrest].
  destruct rest as [|g rest].
  - simpl. rewrite tokenize_field by (assumption || now right). reflexivity.
  - change (join (char COMMA) (map write_field (f :: g :: rest)))
      with (write_field f +:+ char COMMA +:+ join (char COMMA) (map write_field (g :: rest))).
    rewrite !append_assoc, <- (append_assoc (write_field f)), tokenize_bytes_app.
    rewrite tokenize_field by (assumption || now left).
    rewrite after_field_comma, IH by (assumption || discriminate).
    now rewrite <- app_assoc.
Qed.

(** A sound row is read back as it was written, as one line. *)
Lemma tokenize_row (row : list string) ls :
  sound_row row = true ->
  tokenize_bytes (writerow row)
    {| state := START_RECORD; word := ""; fields := []; lines := ls |}
  = {| state := START_RECORD; word := ""; fields := []; lines := (ls ++ [row])%list |}.
Proof.
  unfold sound_row. intros H. apply andb_true_iff in H as [Hv Hcr].
  destruct row as [|f [|g rest]]; [discriminate Hv | |].
  - destruct f as [|c r]; [reflexivity|].
    simpl in Hcr. apply andb_true_iff in Hcr as [Hf _].
    unfold writerow. simpl join.
    rewrite tokenize_first_field; [reflexivity | now right | assumption |].
    intros _. split; [discriminate|]. simpl in Hv. now apply negb_true_iff in Hv.
  - simpl in Hcr. apply andb_true_iff in Hcr as [Hf Hrest].
    assert (writerow (f :: g :: rest)
            = (write_field f +:+ char COMMA)
              +:+ (join (char COMMA) (map write_field (g :: rest)) +:+ char LF)) as ->.
    { destruct f; unfold writerow; simpl map; cbn [join]; now rewrite !append_assoc. }
    rewrite tokenize_bytes_app.
    rewrite tokenize_first_field; [| now left | assumption | discriminate].
    rewrite after_field_comma, tokenize_fields by (assumption || discriminate).
    reflexivity.
Qed.

Lemma tokenize_rows (table : list (list string)) ls :
  List.forallb sound_row table = true ->
  tokenize_bytes (cat (map writerow table))
    {| state := START_RECORD; word := ""; fields := []; lines := ls |}
  = {| state := START_RECORD; word := ""; fields := []; lines := (ls ++ table)%list |}.
Proof.
  revert ls. induction table as [|row table IH]; intros ls H; simpl.
  - now rewrite app_nil_r.
  - simpl in H. apply andb_true_iff in H as [Hrow Htable].
    rewrite tokenize_bytes_app, tokenize_row, IH by assumption.
    now rewrite <- app_assoc.
Qed.

Lemma tokenize_all_rows_written (table : list (list string)) :
  List.forallb sound_row table = true ->
  tokenize_all_rows (cat (map writerow table)) = Some table.
Proof.
  intros H. unfold tokenize_all_rows, parser_new. now rewrite tokenize_rows.
Qed.

(** ** [read_csv] on a file of rows of one length *)

Lemma check_lines_same_length (n : nat) (first : bool) (data : list (list string)) :
  Forall (fun line => length line = n) data -> check_lines n first data = Some data.
Proof.
  revert first. induction data as [|line data IH]; intros first H; [reflexivity|].
  inversion H as [|? ? Hline Hdata]; subst. simpl.
  rewrite Nat.ltb_irrefl, andb_false_r. unfold fill.
  rewrite Nat.sub_diag. simpl. rewrite app_nil_r, IH by assumption. reflexivity.
Qed.

Lemma read_csv_written (header : list string) (data : list (list string)) :
  sound_row header = true -> List.forallb sound_row data = true ->
  Forall (fun line => length line = length header) data ->
  read_csv (writerow header +:+ cat (map writerow data))
  = inr {| columns := header; index := map (fun _ => []) data; rows := data |}.
Proof.
  intros Hh Hd Hlen. unfold read_csv.
  change (writerow header +:+ cat (map writerow data))
    with (cat (map writerow (header :: data))).
  rewrite tokenize_all_rows_written by (simpl; now rewrite Hh, Hd).
  rewrite check_lines_same_length by assumption.
  assert (match data with [] => length header | line :: _ => length line end
          - length header = 0) as ->.
  { destruct data as [|line data]; [apply Nat.sub_diag|].
    inversion Hlen; subst. rewrite H1. apply Nat.sub_diag. }
  f_equal. f_equal. induction data as [|line data IH]; [reflexivity|].
  simpl. f_equal. apply IH.
  - simpl in Hd. now apply andb_true_iff in Hd as [_ ?].
  - now inversion Hlen.
Qed.

(** ** The texts of numbers and of time stamps hold no carriage return *)

Lemma forallb_weaken (p q : ascii -> bool) (s : string) :
  (forall c, p c = true -> q c = true) ->
  Text.forallb p s = true -> Text.forallb q s = true.
Proof.
  intros Hpq. induction s as [|c s IH]; simpl; [reflexivity|].
  intros H. apply andb_true_iff in H as [Hc Hs]. now rewrite (Hpq c Hc), IH.
Qed.

Lemma uint_digits (d : Decimal.uint) :
  Text.forallb is_digit (NilEmpty.string_of_uint d) = true.
Proof. induction d; simpl; try rewrite IHd; reflexivity. Qed.

Lemma of_nat_digits (n : nat) : Text.forallb is_digit (of_nat n) = true.
Proof.
  unfold of_nat, NilZero.string_of_uint.
  destruct (Nat.to_uint n) eqn:E; try reflexivity; rewrite <- E; apply uint_digits.
Qed.

Lemma pad2_digits (n : nat) : Text.forallb is_digit (pad2 n) = true.
Proof.
  unfold pad2. destruct (Nat.ltb n 10).
  - rewrite forallb_append, of_nat_digits. reflexivity.
  - apply of_nat_digits.
Qed.

Lemma digit_stamp_char (s : string) :
  Text.forallb is_digit s = true -> Text.forallb stamp_char s = true.
Proof.
  apply forallb_weaken. intros c H. unfold stamp_char. now rewrite H.
Qed.

Lemma strftime_chars (t : struct_time) : Text.forallb stamp_char (strftime t) = true.
Proof.
  unfold strftime.
  rewrite !forallb_append.
  repeat (apply andb_true_iff; split); try reflexivity;
    apply digit_stamp_char; (apply of_nat_digits || apply pad2_digits).
Qed.

Lemma stamp_char_no_CR (c : ascii) : stamp_char c = true -> negb (IS_CARRIAGE c) = true.
Proof.
  unfold IS_CARRIAGE. destruct (Ascii.eqb c CR) eqn:E; [|reflexivity].
  apply Ascii.eqb_eq in E. subst c. discriminate.
Qed.

Lemma strftime_no_CR (t : struct_time) : no_CR (strftime t) = true.
Proof.
  unfold no_CR. eapply forallb_weaken; [apply stamp_char_no_CR | apply strftime_chars].
Qed.

(** ** Scripts that only read, and what a sequence of scripts does *)

Lemma read_only_ret {A} (a : A) : read_only (ret a).
Proof. intros w. reflexivity. Qed.

Lemma read_only_display e : read_only (display e).
Proof. intros w. reflexivity. Qed.

Lemma read_only_halt {A} e : read_only (@halt A e).
Proof. intros w. reflexivity. Qed.

Lemma read_only_get_fs : read_only get_fs.
Proof. intros w. reflexivity. Qed.

Lemma read_only_returned {A} (r : exn + A) : read_only (returned r).
Proof. destruct r; intros w; reflexivity. Qed.

Lemma read_only_bind {A B} (m : script A) (k : A -> script B) :
  read_only m -> (forall a, read_only (k a)) -> read_only (bind m k).
Proof.
  intros Hm Hk w. unfold bind. destruct (result (m w)) as [e|a] eqn:E; simpl.
  - apply Hm.
  - rewrite Hk. apply Hm.
Qed.

Create HintDb read_only.

#[local] Hint Resolve read_only_ret read_only_display read_only_halt
  read_only_get_fs read_only_returned : read_only.

Ltac read_only :=
  repeat first
    [ apply read_only_bind; [| intros ? ]
    | progress auto with read_only
    | match goal with |- read_only (if ?b then _ else _) => destruct b end
    | match goal with |- read_only (match ?x with _ => _ end) => destruct x end ].

(** What comes after a script that only reads does not see a change. *)
Lemma after_bind_read_only {A B} (m : script A) (k : A -> script B) w :
  (forall a, read_only (k a)) -> after (bind m k w) = after (m w).
Proof.
  intros Hk. unfold bind. destruct (result (m w)) as [e|a]; simpl; [reflexivity | apply Hk].
Qed.

Lemma after_bind_unit {B} (m : script unit) (k : unit -> script B) w :
  result (m w) = inr tt -> after (bind m k w) = after (k tt (after (m w))).
Proof. intros H. unfold bind. now rewrite H. Qed.

Lemma shown_bind_l {A B} (m : script A) (k : A -> script B) w e :
  In e (shown (m w)) -> In e (shown (bind m k w)).
Proof.
  intros H. unfold bind. destruct (result (m w)); simpl; [assumption|].
  apply in_or_app. now left.
Qed.

Lemma shown_bind_r {B} (m : script unit) (k : unit -> script B) w e :
  result (m w) = inr tt -> In e (shown (k tt (after (m w)))) -> In e (shown (bind m k w)).
Proof.
  intros Hr H. unfold bind. rewrite Hr. simpl. apply in_or_app. now right.
Qed.

(** [save_to_csv] in one equation: a new file gets the header line and the
    value line, an existing file gets the value line at its end. *)
(** ** The program, rerun by rerun *)

Lemma save_to_csv_unfold (data_dict : dict) (csv_file : string) (files : gmap string string) :
  save_to_csv data_dict csv_file files
  = <[csv_file :=
        match files !! csv_file with
        | None => writerow (keys data_dict) +:+ writerow (value_row data_dict)
        | Some old => old +:+ writerow (value_row data_dict)
        end]> files.
Proof.
  unfold save_to_csv, isfile, to_csv, csv_text, value_row.
  destruct (files !! csv_file) as [old|]; simpl; now rewrite append_nil_r.
Qed.

Lemma save_to_csv_lookup (data_dict : dict) (csv_file : string) (files : gmap string string) :
  save_to_csv data_dict csv_file files !! csv_file
  = Some match files !! csv_file with
         | None => writerow (keys data_dict) +:+ writerow (value_row data_dict)
         | Some old => old +:+ writerow (value_row data_dict)
         end.
Proof. rewrite save_to_csv_unfold. apply lookup_insert_eq. Qed.

Lemma save_to_csv_other (data_dict : dict) (csv_file other : string) (files : gmap string string) :
  csv_file <> other -> save_to_csv data_dict csv_file files !! other = files !! other.
Proof. intros H. rewrite save_to_csv_unfold. now apply lookup_insert_ne. Qed.

Lemma writerow_not_empty (row : list string) : writerow row <> "".
Proof.
  unfold writerow.
  assert (forall s, s +:+ char LF <> "") as H by (intros [|? ?]; discriminate).
  destruct row as [|[|? ?] [|? ?]]; try apply H. discriminate.
Qed.

Lemma report_tab_read_only : read_only report_tab.
Proof. unfold report_tab, report_section, column_mean. read_only. Qed.

(** The four form tabs, one by one.  Only the exit tab can raise, after it
    has saved. *)
Lemma consent_tab_result i c w : result (consent_tab i c w) = inr tt.
Proof.
  unfold consent_tab, when.
  destruct (st_button i Submit_Consent), (consent_given i); reflexivity.
Qed.

Lemma consent_tab_after i c w :
  after (consent_tab i c w)
  = if st_button i Submit_Consent && consent_given i
    then with_fs (save_to_csv (consent_record i c) CONSENT_CSV (fs w)) w
    else w.
Proof.
  unfold consent_tab, when.
  destruct (st_button i Submit_Consent), (consent_given i); reflexivity.
Qed.

Lemma demographics_tab_result i c w : result (demographics_tab i c w) = inr tt.
Proof.
  unfold demographics_tab, when.
  destruct (st_button i Submit_Demographics), (age i <? 18)%Z,
    (String.eqb (occupation i) ""); reflexivity.
Qed.

Lemma demographics_tab_after i c w :
  after (demographics_tab i c w)
  = if st_button i Submit_Demographics
       && negb ((age i <? 18)%Z || String.eqb (occupation i) "")
    then with_fs (save_to_csv (demographic_record i c) DEMOGRAPHIC_CSV (fs w)) w
    else w.
Proof.
  unfold demographics_tab, when.
  destruct (st_button i Submit_Demographics), (age i <? 18)%Z,
    (String.eqb (occupation i) ""); reflexivity.
Qed.

Lemma tasks_tab_result i c w : result (tasks_tab i c w) = inr tt.
Proof.
  unfold tasks_tab, when.
  destruct (st_button i Start_Task_Timer), (st_button i Stop_Task_Timer),
    (st_button i Save_Task_Results); unfold bind; simpl;
    try destruct (_ !! "start_time"); reflexivity.
Qed.

Lemma tasks_tab_after i c w : after (tasks_tab i c w) = tasks_after i c w.
Proof.
  unfold tasks_tab, tasks_after, when.
  destruct (st_button i Start_Task_Timer), (st_button i Stop_Task_Timer),
    (st_button i Save_Task_Results); unfold bind; simpl;
    try destruct (_ !! "start_time"); reflexivity.
Qed.

Lemma exit_tab_after i c w :
  after (exit_tab i c w)
  = if st_button i Submit_Exit_Questionnaire
    then with_fs (save_to_csv (exit_record i c) EXIT_CSV (fs w)) w
    else w.
Proof.
  unfold exit_tab, when.
  destruct (st_button i Submit_Exit_Questionnaire); [|reflexivity].
  unfold bind; simpl. destruct (_ !! GIF); reflexivity.
Qed.

Lemma main_after_tabs (i : widgets) (c : clock) (w : world) :
  after (main i c w)
  = after (exit_tab i c (after (tasks_tab i c (after (demographics_tab i c
      (after (consent_tab i c w))))))).
Proof.
  unfold main.
  rewrite after_bind_unit by apply consent_tab_result.
  rewrite after_bind_unit by apply demographics_tab_result.
  rewrite after_bind_unit by apply tasks_tab_result.
  apply after_bind_read_only. intros _. apply report_tab_read_only.
Qed.

Lemma main_after (i : widgets) (c : clock) (w : world) :
  after (main i c w) = transition i c w.
Proof.
  rewrite main_after_tabs, exit_tab_after, tasks_tab_after, demographics_tab_after,
    consent_tab_after.
  unfold transition, tasks_after, st_button.
  destruct (pressed i) as [[]|]; simpl button_eqb; cbv iota; simpl andb;
    try reflexivity;
    try (destruct ((age i <? 18)%Z || String.eqb (occupation i) ""); reflexivity);
    destruct (session_state w !! "start_time"); reflexivity.
Qed.

(** ** The row store *)


Lemma appends_existing (records : list dict) (csv_file : string)
    (files : gmap string string) (old : string) :
  files !! csv_file = Some old ->
  appends records csv_file files !! csv_file
  = Some (old +:+ cat (map (fun d => writerow (value_row d)) records)).
Proof.
  revert files old. induction records as [|d records IH]; intros files old H; simpl.
  - now rewrite append_nil_r.
  - erewrite IH by (rewrite save_to_csv_lookup, H; reflexivity).
    now rewrite append_assoc.
Qed.

Lemma appends_created (first : dict) (records : list dict) (csv_file : string)
    (files : gmap string string) :
  files !! csv_file = None ->
  appends (first :: records) csv_file files !! csv_file
  = Some (writerow (keys first)
          +:+ cat (map writerow (map value_row (first :: records)))).
Proof.
  intros H. simpl.
  erewrite appends_existing by (rewrite save_to_csv_lookup, H; reflexivity).
  now rewrite !append_assoc, map_map.
Qed.

(** C6. An append to an existing file leaves what was written in place: the
    old contents are an initial segment of the new contents, after one append
    and after any number of them; and the header line written when the file
    was created stays the first line, followed by one line of values per
    record, in the order of the appends. *)
Theorem append_keeps_written_contents :
  (forall data_dict csv_file files old,
     files !! csv_file = Some old ->
     save_to_csv data_dict csv_file files !! csv_file
     = Some (old +:+ writerow (value_row data_dict)))
  /\ (forall records csv_file files old,
      files !! csv_file = Some old ->
      exists new, appends records csv_file files !! csv_file = Some new
                  /\ is_prefix old new)
  /\ (forall first records csv_file files,
      files !! csv_file = None ->
      appends (first :: records) csv_file files !! csv_file
      = Some (writerow (keys first)
              +:+ cat (map (fun d => writerow (value_row d)) (first :: records)))).
Proof.
  split; [| split].
  - intros d f files old H. now rewrite save_to_csv_lookup, H.
  - intros records f files old H. eexists. split.
    + apply (appends_existing records f files old H).
    + apply is_prefix_append.
  - intros first records f files H.
    rewrite (appends_created first records f files H). now rewrite map_map.
Qed.


(** *** Values that read back as they were written *)

Lemma digits_value_acc (d : Decimal.uint) (acc : positive) :
  digits_value (NilEmpty.string_of_uint d) (Z.pos acc)
  = Some (Z.pos (Pos.of_uint_acc d acc)).
Proof.
  revert acc.
  induction d; intros acc; cbn [NilEmpty.string_of_uint digits_value Pos.of_uint_acc];
    [reflexivity | ..];
    (change (digit_value "0") with (Some 0%Z) || change (digit_value "1") with (Some 1%Z)
     || change (digit_value "2") with (Some 2%Z) || change (digit_value "3") with (Some 3%Z)
     || change (digit_value "4") with (Some 4%Z) || change (digit_value "5") with (Some 5%Z)
     || change (digit_value "6") with (Some 6%Z) || change (digit_value "7") with (Some 7%Z)
     || change (digit_value "8") with (Some 8%Z) || change (digit_value "9") with (Some 9%Z));
    cbv iota; rewrite <- IHd; f_equal; lia.
Qed.

Lemma digits_value_uint (d : Decimal.uint) :
  digits_value (NilEmpty.string_of_uint d) 0 = Some (Z.of_N (Pos.of_uint d)).
Proof.
  induction d; cbn [NilEmpty.string_of_uint digits_value Pos.of_uint];
    [reflexivity | exact IHd | ..];
    (change (digit_value "1") with (Some 1%Z)
     || change (digit_value "2") with (Some 2%Z) || change (digit_value "3") with (Some 3%Z)
     || change (digit_value "4") with (Some 4%Z) || change (digit_value "5") with (Some 5%Z)
     || change (digit_value "6") with (Some 6%Z) || change (digit_value "7") with (Some 7%Z)
     || change (digit_value "8") with (Some 8%Z) || change (digit_value "9") with (Some 9%Z));
    cbv iota; apply digits_value_acc.
Qed.

Lemma digits_value_pos (p : positive) :
  digits_value (NilEmpty.string_of_uint (Pos.to_uint p)) 0 = Some (Z.pos p).
Proof. now rewrite digits_value_uint, DecimalPos.Unsigned.of_to. Qed.

Lemma int_literal_digits (s : string) :
  match s with
  | String c _ => is_digit c = true
  | "" => False
  end -> int_literal s = digits_value s 0.
Proof.
  destruct s as [|c r]; [intros []|]. intros H.
  destruct c as [[] [] [] [] [] [] [] []]; try discriminate H; reflexivity.
Qed.

(** The text of an integer reads as that integer. *)
Lemma int_literal_of_Z (z : Z) : int_literal (of_Z z) = Some z.
Proof.
  unfold of_Z. destruct z as [|p|p]; [reflexivity | |]; cbn [Z.to_int NilZero.string_of_int].
  - pose proof (DecimalPos.Unsigned.to_uint_nonnil p) as Hnil.
    unfold NilZero.string_of_uint.
    destruct (Pos.to_uint p) eqn:Hd; try (now destruct Hnil);
      rewrite <- Hd; (rewrite int_literal_digits;
        [apply digits_value_pos | rewrite Hd; reflexivity]).
  - pose proof (DecimalPos.Unsigned.to_uint_nonnil p) as Hnil.
    pose proof (digits_value_pos p) as Hv.
    unfold NilZero.string_of_uint.
    destruct (Pos.to_uint p) eqn:Hd; try (now destruct Hnil);
      cbn [NilEmpty.string_of_uint] in *; unfold int_literal; rewrite Hv; reflexivity.
Qed.

Lemma of_Z_first (z : Z) :
  match of_Z z with
  | String c _ => is_letter c = false
  | "" => False
  end.
Proof.
  unfold of_Z. destruct z as [|p|p]; [reflexivity | | reflexivity].
  cbn [Z.to_int NilZero.string_of_int].
  unfold NilZero.string_of_uint. destruct (Pos.to_uint p); reflexivity.
Qed.

Lemma kept_as_text_inv (s : string) :
  kept_as_text s = true ->
  s <> "" /\ int_literal s = None /\ s <> "True" /\ s <> "False".
Proof.
  intros H. repeat split.
  - intros ->. discriminate H.
  - destruct s as [|c r]; [discriminate H|]. cbn [kept_as_text] in H.
    apply andb_true_iff in H as [H _].
    destruct c as [[] [] [] [] [] [] [] []]; try discriminate H; reflexivity.
  - intros ->. discriminate H.
  - intros ->. discriminate H.
Qed.

(** A value that [read_back_as_written] admits is read back as itself from
    the text [to_csv] wrote for it. *)
Lemma infer_single_written (v : value) :
  read_back_as_written v = true -> infer_single (str_value v) = Some (Scalar v).
Proof.
  destruct v as [s|z|b|f]; cbn [read_back_as_written str_value]; intros H.
  - destruct (kept_as_text_inv s H) as (H1 & H2 & H3 & H4).
    unfold infer_single, int64_of_field. rewrite H2, H.
    apply String.eqb_neq in H1, H3, H4. now rewrite H1, H3, H4.
  - unfold infer_single, int64_of_field. rewrite int_literal_of_Z, H.
    pose proof (of_Z_first z) as Hf.
    destruct (of_Z z); [destruct Hf | reflexivity].
  - destruct b; reflexivity.
  - discriminate H.
Qed.


(** ** The consent file *)

Lemma paths_distinct :
  CONSENT_CSV <> DEMOGRAPHIC_CSV /\ CONSENT_CSV <> TASK_CSV /\ CONSENT_CSV <> EXIT_CSV
  /\ DEMOGRAPHIC_CSV <> TASK_CSV /\ DEMOGRAPHIC_CSV <> EXIT_CSV /\ TASK_CSV <> EXIT_CSV.
Proof. repeat split; intros H; vm_compute in H; discriminate H. Qed.

(** A rerun writes to the consent file only on a consent submission with the
    box checked, and then it writes the consent record. *)
Lemma transition_consent_file i c w :
  fs (transition i c w) !! CONSENT_CSV
  = match pressed i with
    | Some Submit_Consent =>
        if consent_given i
        then save_to_csv (consent_record i c) CONSENT_CSV (fs w) !! CONSENT_CSV
        else fs w !! CONSENT_CSV
    | _ => fs w !! CONSENT_CSV
    end.
Proof.
  destruct paths_distinct as (H1 & H2 & H3 & _).
  unfold transition. destruct (pressed i) as [[]|]; try reflexivity.
  - destruct (consent_given i); reflexivity.
  - destruct (_ || _); [reflexivity|]. simpl. apply save_to_csv_other. congruence.
  - destruct (_ !! "start_time"); reflexivity.
  - simpl. apply save_to_csv_other. congruence.
  - simpl. apply save_to_csv_other. congruence.
Qed.

Lemma consent_file_snoc stamps t :
  consent_file stamps +:+ writerow (consent_row t) = consent_file (stamps ++ [t])%list.
Proof.
  unfold consent_file. rewrite map_app, cat_app, append_assoc. simpl.
  now rewrite append_nil_r.
Qed.

Lemma reachable_consent_invariant w : reachable w -> consent_invariant (fs w).
Proof.
  induction 1 as [w (H & _) | i c w _ IH].
  - now left.
  - rewrite main_after. unfold consent_invariant. rewrite transition_consent_file.
    destruct (pressed i) as [[]|]; try exact IH.
    destruct (consent_given i) eqn:Hg; [|exact IH].
    right. rewrite save_to_csv_lookup.
    unfold value_row, consent_record, keys, values. simpl map. rewrite Hg.
    destruct IH as [-> | [stamps ->]].
    + exists [localtime c]. unfold consent_file. simpl. now rewrite append_nil_r.
    + exists (stamps ++ [localtime c])%list. f_equal. apply consent_file_snoc.
Qed.

Lemma consent_row_sound t : sound_row (consent_row t) = true.
Proof.
  unfold sound_row, consent_row. simpl. now rewrite strftime_no_CR.
Qed.

Lemma read_consent_file stamps :
  read_csv (consent_file stamps)
  = inr {| columns := consent_header;
           index := map (fun _ => []) stamps;
           rows := map consent_row stamps |}.
Proof.
  unfold consent_file. rewrite <- (map_map consent_row writerow).
  rewrite read_csv_written.
  - now rewrite map_map.
  - reflexivity.
  - induction stamps as [|t stamps IH]; simpl; [reflexivity|].
    now rewrite consent_row_sound.
  - induction stamps; constructor; [reflexivity | assumption].
Qed.

(** C1. A consent submission is persisted exactly when the box is checked.
    With the box checked the rerun writes one line, the row of the
    submission, at the end of the consent file (after the header when the
    file is new); from any world the program reaches, [load_from_csv] then
    returns the rows it returned before followed by that row, so one row
    more.  With the box unchecked the warning is shown and neither the files
    nor the session state change. *)
Theorem consent_persisted_iff_given (i : widgets) (c : clock) (w : world) :
  pressed i = Some Submit_Consent ->
  (consent_given i = true ->
   fs (after (main i c w)) !! CONSENT_CSV
   = Some match fs w !! CONSENT_CSV with
          | None => writerow consent_header +:+ writerow (consent_row (localtime c))
          | Some old => old +:+ writerow (consent_row (localtime c))
          end
   /\ (reachable w ->
       exists df df',
         load_from_csv CONSENT_CSV (fs w) = inr df
         /\ load_from_csv CONSENT_CSV (fs (after (main i c w))) = inr df'
         /\ rows df' = (rows df ++ [consent_row (localtime c)])%list
         /\ nrows df' = nrows df + 1))
  /\ (consent_given i = false ->
      In (st_warning "You must agree to the consent terms before proceeding.")
         (shown (main i c w))
      /\ after (main i c w) = w
      /\ load_from_csv CONSENT_CSV (fs (after (main i c w)))
         = load_from_csv CONSENT_CSV (fs w)).
Proof.
  intros Hp. split; intros Hg.
  - assert (fs (after (main i c w)) !! CONSENT_CSV
            = Some match fs w !! CONSENT_CSV with
                   | None => writerow consent_header +:+ writerow (consent_row (localtime c))
                   | Some old => old +:+ writerow (consent_row (localtime c))
                   end) as Hfile.
    { rewrite main_after, transition_consent_file, Hp, Hg, save_to_csv_lookup.
      unfold value_row, consent_record, keys, values. simpl map. now rewrite Hg. }
    split; [exact Hfile|]. intros Hreach.
    unfold load_from_csv. rewrite Hfile.
    destruct (reachable_consent_invariant w Hreach) as [-> | [stamps ->]].
    + exists DataFrame_empty. eexists. split; [reflexivity|]. split.
      * rewrite <- (append_nil_r (writerow (consent_row _))).
        apply (read_consent_file [localtime c]).
      * split; reflexivity.
    + eexists. eexists. split; [apply read_consent_file|]. split.
      * rewrite consent_file_snoc. apply read_consent_file.
      * simpl. unfold nrows. simpl. rewrite map_app, length_app. split; reflexivity.
  - assert (after (main i c w) = w) as Hw.
    { rewrite main_after. unfold transition. now rewrite Hp, Hg. }
    split; [| split; [exact Hw | now rewrite Hw]].
    unfold main. apply shown_bind_l.
    unfold consent_tab, st_button, when. rewrite Hp, Hg. simpl. now left.
Qed.

(** C9. In every world the program reaches the consent file, when it is
    there, reads back as rows that all hold [True] under [consent_given]; and
    no rerun with the box unchecked writes to the consent file. *)
Theorem consent_file_only_true :
  (forall w, reachable w ->
     exists df,
       load_from_csv CONSENT_CSV (fs w) = inr df
       /\ (forall row, In row (rows df) -> row !! 1 = Some "True")
       /\ (forall cells, getitem df "consent_given" = Some cells ->
           Forall (fun cell => cell = Some "True") cells))
  /\ (forall i c w, consent_given i = false ->
      fs (after (main i c w)) !! CONSENT_CSV = fs w !! CONSENT_CSV).
Proof.
  split.
  - intros w Hreach. unfold load_from_csv.
    destruct (reachable_consent_invariant w Hreach) as [-> | [stamps ->]].
    + exists DataFrame_empty. split; [reflexivity|]. split.
      * intros row [].
      * intros cells H. discriminate H.
    + eexists. split; [apply read_consent_file|]. simpl. split.
      * intros row H. apply in_map_iff in H as [t [<- _]]. reflexivity.
      * intros cells H. unfold getitem in H. simpl in H. inversion H; subst.
        clear H. induction stamps as [|t stamps IH]; constructor; [reflexivity | exact IH].
  - intros i c w Hg. rewrite main_after, transition_consent_file, Hg.
    destruct (pressed i) as [[]|]; reflexivity.
Qed.

(** ** What a rerun shows: the demographic form *)

Lemma shows_only_ret P {A} (a : A) : shows_only P (ret a).
Proof. intros w e []. Qed.

Lemma shows_only_halt P {A} s : shows_only P (@halt A s).
Proof. intros w e []. Qed.

Lemma shows_only_get_fs P : shows_only P get_fs.
Proof. intros w e []. Qed.

Lemma shows_only_returned P {A} (r : exn + A) : shows_only P (returned r).
Proof. destruct r as [x|a]; intros w e []. Qed.

Lemma shows_only_display (P : element -> Prop) (x : element) :
  P x -> shows_only P (display x).
Proof. intros H w e' [<- | []]. exact H. Qed.

Lemma shows_only_bind P {A B} (m : script A) (k : A -> script B) :
  shows_only P m -> (forall a, shows_only P (k a)) -> shows_only P (bind m k).
Proof.
  intros Hm Hk w e. unfold bind. destruct (result (m w)) as [s|a] eqn:E; simpl.
  - apply Hm.
  - intros H. apply in_app_or in H as [H|H]; [now apply (Hm w) | now apply (Hk a (after (m w)))].
Qed.

Lemma shown_bind_inv {A B} (m : script A) (k : A -> script B) w e :
  In e (shown (bind m k w)) ->
  In e (shown (m w))
  \/ exists a, result (m w) = inr a /\ In e (shown (k a (after (m w)))).
Proof.
  unfold bind. destruct (result (m w)) as [s|a]; simpl; [now left|].
  intros H. apply in_app_or in H as [H|H]; [now left | right; now exists a].
Qed.

(** A tab whose buttons are not pressed shows nothing. *)
Lemma consent_tab_idle i c w :
  st_button i Submit_Consent = false -> shown (consent_tab i c w) = [].
Proof. intros H. unfold consent_tab, when. now rewrite H. Qed.

Lemma tasks_tab_idle i c w :
  st_button i Start_Task_Timer = false -> st_button i Stop_Task_Timer = false ->
  st_button i Save_Task_Results = false -> shown (tasks_tab i c w) = [].
Proof. intros H1 H2 H3. unfold tasks_tab, when. now rewrite H1, H2, H3. Qed.

Lemma exit_tab_idle i c w :
  st_button i Submit_Exit_Questionnaire = false -> shown (exit_tab i c w) = [].
Proof. intros H. unfold exit_tab, when. now rewrite H. Qed.

Lemma report_tab_no_warning : shows_only not_warning report_tab.
Proof.
  unfold report_tab, report_section, column_mean.
  repeat first
    [ apply shows_only_bind; [| intros ? ]
    | apply shows_only_ret | apply shows_only_halt | apply shows_only_get_fs
    | apply shows_only_returned | apply shows_only_display; exact I
    | match goal with |- shows_only _ (if ?b then _ else _) => destruct b end
    | match goal with |- shows_only _ (match ?x with _ => _ end) => destruct x end ].
Qed.

(** C2. A demographic submission is rejected, that is warned and left out of
    the file, exactly when the age is under 18 or the occupation is empty:
    under 18 it is rejected whatever the other fields hold, with an empty
    occupation it is rejected, and otherwise it is persisted as one line at
    the end of the demographic file, after the header when the file is
    new. *)
Theorem demographic_rejected_iff (i : widgets) (c : clock) (w : world) :
  pressed i = Some Submit_Demographics ->
  (((age i < 18)%Z \/ occupation i = "")
   <-> ((exists body, In (st_warning body) (shown (main i c w)))
        /\ fs (after (main i c w)) !! DEMOGRAPHIC_CSV = fs w !! DEMOGRAPHIC_CSV))
  /\ (((age i < 18)%Z \/ occupation i = "")
      <-> fs (after (main i c w)) !! DEMOGRAPHIC_CSV = fs w !! DEMOGRAPHIC_CSV)
  /\ ((age i < 18)%Z ->
      In (st_warning "You must be 18 or older to fill this form out.") (shown (main i c w))
      /\ after (main i c w) = w)
  /\ (occupation i = "" ->
      (exists body, In (st_warning body) (shown (main i c w)))
      /\ after (main i c w) = w)
  /\ ((18 <= age i)%Z -> occupation i <> "" ->
      fs (after (main i c w)) !! DEMOGRAPHIC_CSV
      = Some match fs w !! DEMOGRAPHIC_CSV with
             | None => writerow demographic_header +:+ writerow (demographic_row i c)
             | Some old => old +:+ writerow (demographic_row i c)
             end
      /\ In (st_success "Demographic data saved.") (shown (main i c w))
      /\ forall body, ~ In (st_warning body) (shown (main i c w))).
Proof.
  intros Hp.
  assert (forall e, In e (shown (demographics_tab i c w)) -> In e (shown (main i c w))) as Hshown.
  { intros e H. unfold main. apply shown_bind_r.
    - apply consent_tab_result.
    - apply shown_bind_l.
      rewrite consent_tab_after. unfold st_button. rewrite Hp. exact H. }
  assert ((age i < 18)%Z ->
          In (st_warning "You must be 18 or older to fill this form out.") (shown (main i c w))
          /\ after (main i c w) = w) as Hyoung.
  { intros Ha. apply Z.ltb_lt in Ha. split.
    - apply Hshown. unfold demographics_tab, st_button, when.
      rewrite Hp, Ha. simpl. now left.
    - rewrite main_after. unfold transition. now rewrite Hp, Ha. }
  assert (occupation i = "" ->
          (exists body, In (st_warning body) (shown (main i c w)))
          /\ after (main i c w) = w) as Hempty.
  { intros Ho. split.
    - destruct (age i <? 18)%Z eqn:Ha.
      + apply Z.ltb_lt in Ha. eexists. apply (Hyoung Ha).
      + eexists. apply Hshown. unfold demographics_tab, st_button, when.
        rewrite Hp, Ha, Ho. simpl. now left.
    - rewrite main_after. unfold transition. rewrite Hp, Ho.
      now rewrite orb_true_r. }
  assert ((18 <= age i)%Z -> occupation i <> "" ->
          fs (after (main i c w)) !! DEMOGRAPHIC_CSV
          = Some match fs w !! DEMOGRAPHIC_CSV with
                 | None => writerow demographic_header +:+ writerow (demographic_row i c)
                 | Some old => old +:+ writerow (demographic_row i c)
                 end
          /\ In (st_success "Demographic data saved.") (shown (main i c w))
          /\ forall body, ~ In (st_warning body) (shown (main i c w))) as Hok.
  { intros Ha Ho.
    assert ((age i <? 18)%Z = false) as Ha' by now apply Z.ltb_ge.
    assert (String.eqb (occupation i) "" = false) as Ho' by now apply String.eqb_neq.
    split; [| split].
    - rewrite main_after. unfold transition. rewrite Hp, Ha', Ho'. simpl.
      apply save_to_csv_lookup.
    - apply Hshown. unfold demographics_tab, st_button, when.
      rewrite Hp, Ha', Ho'. simpl. now left.
    - intros body H. unfold main in H.
      apply shown_bind_inv in H as [H | (_ & _ & H)].
      { rewrite consent_tab_idle in H by (unfold st_button; now rewrite Hp). destruct H. }
      apply shown_bind_inv in H as [H | (_ & _ & H)].
      { rewrite consent_tab_after in H. unfold st_button in H. rewrite Hp in H. simpl in H.
        unfold demographics_tab, st_button, when in H.
        rewrite Hp, Ha', Ho' in H. simpl in H. destruct H as [H | H]; [discriminate H | destruct H]. }
      apply shown_bind_inv in H as [H | (_ & _ & H)].
      { rewrite tasks_tab_idle in H by (unfold st_button; now rewrite Hp). destruct H. }
      apply shown_bind_inv in H as [H | (_ & _ & H)].
      { rewrite exit_tab_idle in H by (unfold st_button; now rewrite Hp). destruct H. }
      now apply (report_tab_no_warning _ _ H). }
  split; [| split; [| split; [exact Hyoung | split; [exact Hempty | exact Hok]]]].
  - split.
    + intros [Ha | Ho].
      * destruct (Hyoung Ha) as [H1 H2]. split; [eexists; exact H1 | now rewrite H2].
      * destruct (Hempty Ho) as [H1 H2]. split; [exact H1 | now rewrite H2].
    + intros [[body Hwarn] _].
      destruct (Z.lt_ge_cases (age i) 18) as [Ha | Ha]; [now left|].
      destruct (String.eqb_spec (occupation i) "") as [Ho | Ho]; [now right|].
      destruct (Hok Ha Ho) as (_ & _ & Hno). now destruct (Hno body).
  - split.
    + intros [Ha | Ho].
      * destruct (Hyoung Ha) as [_ H2]. now rewrite H2.
      * destruct (Hempty Ho) as [_ H2]. now rewrite H2.
    + intros Hsame.
      destruct (Z.lt_ge_cases (age i) 18) as [Ha | Ha]; [now left|].
      destruct (String.eqb_spec (occupation i) "") as [Ho | Ho]; [now right|].
      destruct (Hok Ha Ho) as (Hfile & _). rewrite Hfile in Hsame.
      destruct (fs w !! DEMOGRAPHIC_CSV) as [old|]; [|discriminate Hsame].
      injection Hsame as Hsame.
      now destruct (append_grows old _ (writerow_not_empty (demographic_row i c))).
Qed.

(** ** The task record *)

(** The task file after the task results are saved *)
Lemma save_task_file i c w :
  pressed i = Some Save_Task_Results ->
  fs (after (main i c w)) !! TASK_CSV
  = Some
      (let record := task_record i c (session_state w !! "task_duration") in
       match fs w !! TASK_CSV with
       | None => writerow task_header +:+ writerow (value_row record)
       | Some old => old +:+ writerow (value_row record)
       end).
Proof.
  intros Hp. rewrite main_after. unfold transition. rewrite Hp. simpl.
  apply save_to_csv_lookup.
Qed.

(** C8. In the task record that is saved, and in the line written for it,
    the three bug-report fields hold what was entered when the bug box is
    checked (the traceback, the description, the impact rating) and are empty
    when it is not, whatever the bug-report widgets held. *)
Theorem bug_fields_follow_checkbox (i : widgets) (c : clock) (w : world) :
  pressed i = Some Save_Task_Results ->
  let record := task_record i c (session_state w !! "task_duration") in
  let before := [strftime (localtime c); task_text (selected_task i);
                 success_text (success i);
                 str_value (duration_field (session_state w !! "task_duration"))] in
  fs (after (main i c w)) !! TASK_CSV
  = Some match fs w !! TASK_CSV with
         | None => writerow task_header +:+ writerow (value_row record)
         | Some old => old +:+ writerow (value_row record)
         end
  /\ (bugs i = true ->
      dict_get record "bug" = Some (VStr (traceback i))
      /\ dict_get record "bug_description" = Some (VStr (bug_desc i))
      /\ dict_get record "bug_impact" = Some (VInt (bug_imp i))
      /\ value_row record
         = (before ++ [traceback i; bug_desc i; of_Z (bug_imp i); notes i])%list)
  /\ (bugs i = false ->
      dict_get record "bug" = Some (VStr "")
      /\ dict_get record "bug_description" = Some (VStr "")
      /\ dict_get record "bug_impact" = Some (VStr "")
      /\ value_row record = (before ++ [""; ""; ""; notes i])%list).
Proof.
  intros Hp record before. split; [now apply save_task_file|].
  unfold record, before, value_row, task_record, values.
  split; intros Hb; rewrite Hb; repeat split; reflexivity.
Qed.

(** C10. When the duration kept in the session state is a zero, the
    [duration_seconds] field of the saved record is the empty string, not the
    float, and the files after the rerun are the files a rerun leaves when no
    duration was kept at all. *)
Theorem zero_duration_saved_as_empty (i : widgets) (c : clock) (w : world) (sign : bool) :
  pressed i = Some Save_Task_Results ->
  session_state w !! "task_duration" = Some (S754_zero sign) ->
  let record := task_record i c (session_state w !! "task_duration") in
  dict_get record "duration_seconds" = Some (VStr "")
  /\ value_row record !! 3 = Some ""
  /\ fs (after (main i c w))
     = fs (after (main i c (with_session (delete "task_duration" (session_state w)) w))).
Proof.
  intros Hp Hd record. unfold record. rewrite Hd.
  split; [reflexivity | split; [reflexivity|]].
  rewrite !main_after. unfold transition. rewrite Hp. simpl.
  now rewrite Hd, lookup_delete_eq.
Qed.

(** A finite float minus itself is the positive zero. *)
Lemma float_sub_self (s : bool) (m : positive) (e : Z) :
  float_sub (S754_finite s m e) (S754_finite s m e) = S754_zero false.
Proof.
  unfold float_sub, SFsub. rewrite Z.min_id.
  rewrite Z.sub_diag. reflexivity.
Qed.

(** The timer stopped at the reading of the clock it was started at keeps a
    zero as the duration. *)
Lemma stopped_at_start_keeps_zero i c w s m e :
  pressed i = Some Stop_Task_Timer ->
  session_state w !! "start_time" = Some (S754_finite s m e) ->
  time c = S754_finite s m e ->
  session_state (after (main i c w)) !! "task_duration" = Some (S754_zero false).
Proof.
  intros Hp Hs Ht. rewrite main_after. unfold transition. rewrite Hp, Hs, Ht.
  rewrite float_sub_self. unfold with_session. cbn [session_state].
  apply lookup_insert_eq.
Qed.

(** ** The report *)

Lemma on_scale_cases z : on_scale z -> z = 1%Z \/ z = 2%Z \/ z = 3%Z \/ z = 4%Z \/ z = 5%Z.
Proof. unfold on_scale. lia. Qed.

Lemma on_scale_no_CR z : on_scale z -> no_CR (of_Z z) = true.
Proof. intros H. destruct (on_scale_cases z H) as [-> | [-> | [-> | [-> | ->]]]]; reflexivity. Qed.

Lemma on_scale_int64 z : on_scale z -> int64_of_field (Some (of_Z z)) = Some z.
Proof. intros H. destruct (on_scale_cases z H) as [-> | [-> | [-> | [-> | ->]]]]; reflexivity. Qed.

Lemma exit_row_sound ic : exit_submission ic -> sound_row (exit_row ic) = true.
Proof.
  intros (_ & Hs & Hd & Hf). unfold sound_row, exit_row. simpl.
  now rewrite strftime_no_CR, (on_scale_no_CR _ Hs), (on_scale_no_CR _ Hd), Hf.
Qed.

Lemma read_exit_file inputs :
  Forall exit_submission inputs -> read_csv (exit_file inputs) = inr (exit_frame inputs).
Proof.
  intros H. unfold exit_file, exit_frame. rewrite <- (map_map exit_row writerow).
  rewrite read_csv_written.
  - now rewrite map_map.
  - reflexivity.
  - induction H as [|ic inputs Hic _ IH]; simpl; [reflexivity|].
    now rewrite (exit_row_sound ic Hic).
  - clear H. induction inputs; constructor; [reflexivity | assumption].
Qed.

Lemma exit_file_snoc inputs ic :
  exit_file inputs +:+ writerow (exit_row ic) = exit_file (inputs ++ [ic])%list.
Proof.
  unfold exit_file. rewrite map_app, cat_app, append_assoc. simpl.
  now rewrite append_nil_r.
Qed.

(** An exit submission writes to the exit file, and to no other file. *)
Lemma transition_exit ic w :
  pressed (fst ic) = Some Submit_Exit_Questionnaire ->
  fs (transition (fst ic) (snd ic) w)
  = save_to_csv (exit_record (fst ic) (snd ic)) EXIT_CSV (fs w).
Proof. intros Hp. unfold transition. now rewrite Hp. Qed.

Lemma reruns_exit_only inputs : forall done w,
  Forall exit_submission inputs ->
  fs w !! EXIT_CSV = exit_contents done ->
  let w' := reruns inputs w in
  fs w' !! EXIT_CSV = exit_contents (done ++ inputs)%list
  /\ forall path, path <> EXIT_CSV -> fs w' !! path = fs w !! path.
Proof.
  induction inputs as [|ic inputs IH]; intros done w Hall He; simpl.
  - now rewrite app_nil_r.
  - inversion Hall as [|? ? Hic Hrest]; subst.
    replace (done ++ ic :: inputs)%list with ((done ++ [ic]) ++ inputs)%list
      by now rewrite <- app_assoc.
    destruct Hic as (Hp & _).
    destruct (IH (done ++ [ic])%list (after (main (fst ic) (snd ic) w)) Hrest) as [H1 H2].
    + rewrite main_after, (transition_exit ic w Hp).
      rewrite save_to_csv_lookup, He.
      assert (exit_contents (done ++ [ic])%list = Some (exit_file (done ++ [ic])%list)) as ->
        by (destruct done; reflexivity).
      f_equal. destruct done as [|d done]; simpl exit_contents; cbv iota.
      * unfold exit_file. simpl. now rewrite append_nil_r.
      * apply (exit_file_snoc (d :: done) ic).
    + split; [exact H1|]. intros path Hpath. rewrite (H2 path Hpath).
      rewrite main_after, (transition_exit ic w Hp).
      apply save_to_csv_other. congruence.
Qed.

Lemma bind_run {A B} (m : script A) (k : A -> script B) w s w' a :
  m w = {| shown := s; after := w'; result := inr a |} ->
  bind m k w
  = {| shown := (s ++ shown (k a w'))%list; after := after (k a w'); result := result (k a w') |}.
Proof. intros H. unfold bind. rewrite H. reflexivity. Qed.

Lemma report_section_run title nothing csv_file w df :
  load_from_csv csv_file (fs w) = inr df ->
  report_section title nothing csv_file w
  = {| shown := [st_write title;
                 if negb (empty df) then st_dataframe df else st_info nothing];
       after := w; result := inr df |}.
Proof.
  intros H. unfold report_section, bind, get_fs, returned, display. simpl. rewrite H. simpl.
  destruct (empty df); reflexivity.
Qed.

Lemma report_section_result title nothing csv_file w df :
  result (report_section title nothing csv_file w) = inr df ->
  load_from_csv csv_file (fs w) = inr df.
Proof.
  unfold report_section, bind, get_fs, returned, display. simpl.
  destruct (load_from_csv csv_file (fs w)) as [e|df']; simpl; [discriminate|].
  destruct (empty df'); simpl; congruence.
Qed.

Lemma report_section_read_only title nothing csv_file :
  read_only (report_section title nothing csv_file).
Proof. unfold report_section. read_only. Qed.

Lemma report_section_shows title nothing csv_file :
  shows_only (section_element title) (report_section title nothing csv_file).
Proof.
  unfold report_section.
  repeat first
    [ apply shows_only_bind; [| intros ? ]
    | apply shows_only_ret | apply shows_only_get_fs | apply shows_only_returned
    | apply shows_only_display; simpl; auto
    | match goal with |- shows_only _ (if ?b then _ else _) => destruct b end ].
Qed.

Lemma column_mean_run df label w cells m :
  getitem df label = Some cells -> Series_mean cells = Some m ->
  column_mean df label w = {| shown := []; after := w; result := inr m |}.
Proof. intros H1 H2. unfold column_mean. now rewrite H1, H2. Qed.

Lemma column_mean_result df label w m :
  result (column_mean df label w) = inr m ->
  exists cells, getitem df label = Some cells /\ Series_mean cells = Some m.
Proof.
  unfold column_mean. destruct (getitem df label) as [cells|]; [|discriminate].
  destruct (Series_mean cells) as [m'|] eqn:E; [|discriminate].
  simpl. intros H. exists cells. split; congruence.
Qed.

Lemma column_mean_shows df label w : shown (column_mean df label w) = [].
Proof.
  unfold column_mean. destruct (getitem df label) as [cells|]; [|reflexivity].
  destruct (Series_mean cells); reflexivity.
Qed.

Lemma column_mean_after df label w : after (column_mean df label w) = w.
Proof.
  unfold column_mean. destruct (getitem df label) as [cells|]; [|reflexivity].
  destruct (Series_mean cells); reflexivity.
Qed.

Lemma report_tab_inv w e :
  In e (shown (report_tab w)) ->
  match e with
  | st_write text =>
      In text section_titles
      \/ exists df, load_from_csv EXIT_CSV (fs w) = inr df /\ empty df = false
                    /\ average_line df text
  | st_subheader _ =>
      exists df, load_from_csv EXIT_CSV (fs w) = inr df /\ empty df = false
  | st_dataframe _ | st_info _ => True
  | _ => False
  end.
Proof.
  assert (forall title, In title section_titles ->
          forall x, section_element title x ->
          match x with
          | st_write text =>
              In text section_titles
              \/ exists df, load_from_csv EXIT_CSV (fs w) = inr df /\ empty df = false
                            /\ average_line df text
          | st_subheader _ =>
              exists df, load_from_csv EXIT_CSV (fs w) = inr df /\ empty df = false
          | st_dataframe _ | st_info _ => True
          | _ => False
          end) as Hsec.
  { intros title Ht [] Hx; simpl in Hx; try contradiction; try exact I.
    left. now subst. }
  unfold report_tab. intros H.
  apply shown_bind_inv in H as [H | (cdf & _ & H)].
  { apply report_section_shows in H. refine (Hsec _ _ _ H); simpl; tauto. }
  rewrite report_section_read_only in H.
  apply shown_bind_inv in H as [H | (ddf & _ & H)].
  { apply report_section_shows in H. refine (Hsec _ _ _ H); simpl; tauto. }
  rewrite report_section_read_only in H.
  apply shown_bind_inv in H as [H | (tdf & _ & H)].
  { apply report_section_shows in H. refine (Hsec _ _ _ H); simpl; tauto. }
  rewrite report_section_read_only in H.
  apply shown_bind_inv in H as [H | (edf & He & H)].
  { apply report_section_shows in H. refine (Hsec _ _ _ H); simpl; tauto. }
  rewrite report_section_read_only in H.
  apply report_section_result in He.
  destruct (empty edf) eqn:Hempty; simpl in H; [destruct H|].
  destruct H as [<- | H]; [now exists edf|].
  apply shown_bind_inv in H as [H | (m1 & Hm1 & H)].
  { rewrite column_mean_shows in H. destruct H. }
  rewrite column_mean_after in H.
  apply column_mean_result in Hm1 as (cells1 & Hg1 & Hs1).
  apply shown_bind_inv in H as [H | (m2 & Hm2 & H)].
  { rewrite column_mean_shows in H. destruct H. }
  rewrite column_mean_after in H.
  apply column_mean_result in Hm2 as (cells2 & Hg2 & Hs2).
  apply shown_bind_inv in H as [H | (_ & _ & H)].
  - destruct H as [<- | []]. right. exists edf. repeat split; try assumption.
    exists cells1, m1. split; [assumption | left; now split].
  - destruct H as [<- | []]. right. exists edf. repeat split; try assumption.
    exists cells2, m2. split; [assumption | right; now split].
Qed.

(** The report when the four files load *)
Lemma report_tab_run w consent_df demographic_df task_df exit_df :
  load_from_csv CONSENT_CSV (fs w) = inr consent_df ->
  load_from_csv DEMOGRAPHIC_CSV (fs w) = inr demographic_df ->
  load_from_csv TASK_CSV (fs w) = inr task_df ->
  load_from_csv EXIT_CSV (fs w) = inr exit_df ->
  (empty exit_df = true ->
   report_tab w
   = {| shown := sections_shown consent_df demographic_df task_df exit_df;
        after := w; result := inr tt |})
  /\ (empty exit_df = false ->
      forall cells1 m1 cells2 m2,
        getitem exit_df "satisfaction" = Some cells1 -> Series_mean cells1 = Some m1 ->
        getitem exit_df "difficulty" = Some cells2 -> Series_mean cells2 = Some m2 ->
        report_tab w
        = {| shown := (sections_shown consent_df demographic_df task_df exit_df
                       ++ averages_shown m1 m2)%list;
             after := w; result := inr tt |}).
Proof.
  intros Hc Hd Ht He.
  assert (forall k : DataFrame string -> script unit,
            (c <- report_section "**Consent Data**" "No consent data available yet." CONSENT_CSV;;
             d <- report_section "**Demographic Data**" "No demographic data available yet."
                    DEMOGRAPHIC_CSV;;
             t <- report_section "**Task Performance Data**" "No task data available yet."
                    TASK_CSV;;
             e <- report_section "**Exit Questionnaire Data**"
                    "No exit questionnaire data available yet." EXIT_CSV;;
             k e)%script w
            = {| shown := (sections_shown consent_df demographic_df task_df exit_df
                           ++ shown (k exit_df w))%list;
                 after := after (k exit_df w); result := result (k exit_df w) |}) as Hsections.
  { intros k.
    rewrite (bind_run _ _ _ _ _ _ (report_section_run _ _ _ _ _ Hc)).
    rewrite (bind_run _ _ _ _ _ _ (report_section_run _ _ _ _ _ Hd)).
    rewrite (bind_run _ _ _ _ _ _ (report_section_run _ _ _ _ _ Ht)).
    rewrite (bind_run _ _ _ _ _ _ (report_section_run _ _ _ _ _ He)).
    unfold sections_shown, section_shown. cbn [after result shown].
    now rewrite <- !app_assoc. }
  unfold report_tab. rewrite Hsections. split.
  - intros Hempty. rewrite Hempty. cbn [negb ret shown after result]. now rewrite app_nil_r.
  - intros Hempty cells1 m1 cells2 m2 Hg1 Hm1 Hg2 Hm2. rewrite Hempty. cbn [negb].
    rewrite (bind_run _ _ w [st_subheader "Exit Questionnaire Averages"] w tt eq_refl).
    rewrite (bind_run _ _ _ _ _ _ (column_mean_run _ _ _ _ _ Hg1 Hm1)).
    rewrite (bind_run _ _ _ _ _ _ (column_mean_run _ _ _ _ _ Hg2 Hm2)).
    reflexivity.
Qed.

Lemma sum_abs_on_scale (xs : list Z) :
  Forall on_scale xs -> (sum_Z (map Z.abs xs) <= 5 * Z.of_nat (length xs))%Z.
Proof.
  induction 1 as [|z xs Hz _ IH]; [simpl; lia|]. unfold on_scale in Hz.
  cbn [map length]. rewrite Nat2Z.inj_succ.
  change (sum_Z (Z.abs z :: map Z.abs xs)) with (Z.abs z + sum_Z (map Z.abs xs))%Z.
  lia.
Qed.

Lemma int64_column_on_scale (xs : list Z) :
  Forall on_scale xs -> int64_column (map (fun z => Some (of_Z z)) xs) = Some xs.
Proof.
  induction 1 as [|z xs Hz _ IH]; [reflexivity|].
  cbn [map int64_column]. now rewrite (on_scale_int64 z Hz), IH.
Qed.

Lemma Series_mean_on_scale (xs : list Z) :
  Forall on_scale xs -> (5 * Z.of_nat (length xs) <= 2 ^ 53)%Z ->
  Series_mean (map (fun z => Some (of_Z z)) xs) = Some (mean_of xs).
Proof.
  intros H Hn. unfold Series_mean. rewrite (int64_column_on_scale xs H).
  pose proof (sum_abs_on_scale xs H) as Hs.
  assert ((sum_Z (map Z.abs xs) <=? 2 ^ 53)%Z = true) as -> by (apply Z.leb_le; lia).
  assert ((Z.of_nat (length xs) <=? 2 ^ 53)%Z = true) as -> by (apply Z.leb_le; lia).
  reflexivity.
Qed.

Lemma exit_frame_means inputs :
  Forall exit_submission inputs -> (5 * Z.of_nat (length inputs) <= 2 ^ 53)%Z ->
  exists cells1 cells2,
    getitem (exit_frame inputs) "satisfaction" = Some cells1
    /\ Series_mean cells1 = Some (mean_of (satisfactions inputs))
    /\ getitem (exit_frame inputs) "difficulty" = Some cells2
    /\ Series_mean cells2 = Some (mean_of (difficulties inputs)).
Proof.
  intros Hall Hn.
  exists (map (fun z => Some (of_Z z)) (satisfactions inputs)),
         (map (fun z => Some (of_Z z)) (difficulties inputs)).
  unfold satisfactions, difficulties.
  split; [| split; [| split]].
  - unfold getitem, exit_frame. simpl. now rewrite !map_map.
  - apply Series_mean_on_scale; [| now rewrite length_map].
    clear Hn. induction Hall as [|ic inputs (_ & Hs & _) _ IH]; constructor; assumption.
  - unfold getitem, exit_frame. simpl. now rewrite !map_map.
  - apply Series_mean_on_scale; [| now rewrite length_map].
    clear Hn. induction Hall as [|ic inputs (_ & _ & Hd & _) _ IH]; constructor; assumption.
Qed.

Lemma run_eta {A} (r : run A) :
  {| shown := shown r; after := after r; result := result r |} = r.
Proof. now destruct r. Qed.

(** A rerun in which no button is pressed is the report. *)
Lemma main_idle i c w : pressed i = None -> main i c w = report_tab w.
Proof.
  intros Hp. unfold main, consent_tab, demographics_tab,
    tasks_tab, exit_tab, st_button, when. rewrite Hp.
  unfold bind, ret, get_session. simpl. apply run_eta.
Qed.

(** The report reads a file that a rerun did not write as it was. *)
Lemma load_same_file path (files files' : gmap string string) :
  files' !! path = files !! path -> load_from_csv path files' = load_from_csv path files.
Proof. intros H. unfold load_from_csv. now rewrite H. Qed.

(** ** Two decimals *)

Lemma pad2_length (n : nat) : n < 100 -> String.length (pad2 n) = 2.
Proof.
  intros H.
  do 100 (destruct n as [|n]; [reflexivity|]). lia.
Qed.

Lemma hundredths_nearest (m : positive) (e : Z) :
  (0 <= hundredths m e)%Z
  /\ ((0 <= e)%Z -> hundredths m e = (Z.pos m * 100 * 2 ^ e)%Z)
  /\ ((e < 0)%Z ->
      (2 * Z.abs (Z.pos m * 100 - hundredths m e * 2 ^ (- e)) <= 2 ^ (- e))%Z
      /\ ((2 * Z.abs (Z.pos m * 100 - hundredths m e * 2 ^ (- e)) = 2 ^ (- e))%Z ->
          Z.even (hundredths m e) = true)).
Proof.
  unfold hundredths. destruct (Z.leb_spec 0 e) as [He | He].
  - split; [| split; [reflexivity | lia]].
    assert (0 < 2 ^ e)%Z by (apply Z.pow_pos_nonneg; lia). nia.
  - set (n := (Z.pos m * 100)%Z). set (d := (2 ^ (- e))%Z).
    assert (0 < d)%Z as Hd by (apply Z.pow_pos_nonneg; lia).
    pose proof (Z.div_mod n d ltac:(lia)) as Hn.
    pose proof (Z.mod_pos_bound n d Hd) as Hr.
    assert (0 <= n / d)%Z as Hq by (apply Z.div_pos; lia).
    set (q := (n / d)%Z) in *. set (r := (n mod d)%Z) in *.
    assert (Z.even (q + 1) = negb (Z.even q)) as Heven
      by (rewrite Z.add_1_r, Z.even_succ; symmetry; apply Z.negb_even).
    destruct (Z.ltb_spec d (2 * r)) as [H1 | H1]; [| destruct (Z.eqb_spec (2 * r) d) as [H2 | H2];
      [destruct (Z.even q) eqn:Hqe |]].
    + split; [lia | split; [lia | intros _; split; [nia | intros H; exfalso; nia]]].
    + split; [lia | split; [lia | intros _; split; [nia | intros _; exact Hqe]]].
    + split; [lia | split; [lia | intros _; split; [nia | intros _; exact Heven]]].
    + split; [lia | split; [lia | intros _; split; [nia | intros H; exfalso; nia]]].
Qed.

(** ** The report after exit submissions *)

Lemma report_after_exit_submissions w inputs consent_df demographic_df task_df :
  load_from_csv CONSENT_CSV (fs w) = inr consent_df ->
  load_from_csv DEMOGRAPHIC_CSV (fs w) = inr demographic_df ->
  load_from_csv TASK_CSV (fs w) = inr task_df ->
  fs w !! EXIT_CSV = None ->
  Forall exit_submission inputs -> inputs <> [] ->
  (5 * Z.of_nat (length inputs) <= 2 ^ 53)%Z ->
  exists exit_df,
    load_from_csv EXIT_CSV (fs (reruns inputs w)) = inr exit_df
    /\ nrows exit_df = length inputs
    /\ report_tab (reruns inputs w)
       = {| shown := (sections_shown consent_df demographic_df task_df exit_df
                      ++ averages_shown (mean_of (satisfactions inputs))
                           (mean_of (difficulties inputs)))%list;
            after := reruns inputs w;
            result := inr tt |}.
Proof.
  intros Hc Hd Ht He Hall Hsome Hn.
  destruct paths_distinct as (_ & _ & P3 & _ & P5 & P6).
  destruct (reruns_exit_only inputs [] w Hall He) as [Hexit Hother].
  cbn [app] in Hexit.
  exists (exit_frame inputs).
  assert (load_from_csv EXIT_CSV (fs (reruns inputs w)) = inr (exit_frame inputs)) as Hload.
  { unfold load_from_csv. rewrite Hexit.
    destruct inputs as [|ic inputs]; [now destruct Hsome|].
    cbn [exit_contents]. now apply read_exit_file. }
  split; [exact Hload | split].
  - unfold nrows, exit_frame. cbn [rows]. apply length_map.
  - destruct (exit_frame_means inputs Hall Hn) as (cells1 & cells2 & H1 & H2 & H3 & H4).
    refine (proj2 (report_tab_run (reruns inputs w) consent_df demographic_df task_df
                     (exit_frame inputs) _ _ _ Hload) _ cells1 _ cells2 _ H1 H2 H3 H4).
    + rewrite <- Hc. apply load_same_file, Hother. congruence.
    + rewrite <- Hd. apply load_same_file, Hother. congruence.
    + rewrite <- Ht. apply load_same_file, Hother. congruence.
    + destruct inputs as [|ic inputs]; [now destruct Hsome | reflexivity].
Qed.

(** C5. The report computes averages for the exit section only, and only
    when the exit frame it loaded is not empty.
    - In a run described to its end, a subheader or an average line is shown
      only then, and an average line is the mean of the [satisfaction] or of
      the [difficulty] column of that frame.
    - Whenever the four files load, the report shows the four sections and,
      when the exit frame is not empty, the subheader and the two means of
      its integer columns, whatever the other three files hold.
    - After exit submissions (sliders from 1 to 5) to a folder without an
      exit file, the exit frame has one row per submission and the two lines
      are the means of the submitted values.
    - Two exit records with satisfaction 4 and 2, in either order, give the
      line for an average satisfaction of 3.00.
    - A rerun in which no button is pressed is this report.
    - A finite mean is printed as the digits of its hundredths, two of them
      after the point; the hundredths are the integer nearest to a hundred
      times the exact value of the float, the even one at a tie.  So 4.5 is
      printed 4.50, 5/3 is printed 1.67, 9/8 is printed 1.12 and 11/8 is
      printed 1.38. *)
Theorem report_exit_averages :
  (forall w e,
     described (report_tab w) ->
     In e (shown (report_tab w)) ->
     match e with
     | st_write text =>
         In text section_titles
         \/ exists df, load_from_csv EXIT_CSV (fs w) = inr df /\ empty df = false
                       /\ average_line df text
     | st_subheader _ =>
         exists df, load_from_csv EXIT_CSV (fs w) = inr df /\ empty df = false
     | st_dataframe _ | st_info _ => True
     | _ => False
     end)
  /\ (forall w consent_df demographic_df task_df exit_df,
      load_from_csv CONSENT_CSV (fs w) = inr consent_df ->
      load_from_csv DEMOGRAPHIC_CSV (fs w) = inr demographic_df ->
      load_from_csv TASK_CSV (fs w) = inr task_df ->
      load_from_csv EXIT_CSV (fs w) = inr exit_df ->
      (empty exit_df = true ->
       report_tab w
       = {| shown := sections_shown consent_df demographic_df task_df exit_df;
            after := w; result := inr tt |})
      /\ (empty exit_df = false ->
          forall cells1 m1 cells2 m2,
            getitem exit_df "satisfaction" = Some cells1 -> Series_mean cells1 = Some m1 ->
            getitem exit_df "difficulty" = Some cells2 -> Series_mean cells2 = Some m2 ->
            report_tab w
            = {| shown := (sections_shown consent_df demographic_df task_df exit_df
                           ++ averages_shown m1 m2)%list;
                 after := w; result := inr tt |}))
  /\ (forall w inputs consent_df demographic_df task_df,
      load_from_csv CONSENT_CSV (fs w) = inr consent_df ->
      load_from_csv DEMOGRAPHIC_CSV (fs w) = inr demographic_df ->
      load_from_csv TASK_CSV (fs w) = inr task_df ->
      fs w !! EXIT_CSV = None ->
      Forall exit_submission inputs -> inputs <> [] ->
      (5 * Z.of_nat (length inputs) <= 2 ^ 53)%Z ->
      exists exit_df,
        load_from_csv EXIT_CSV (fs (reruns inputs w)) = inr exit_df
        /\ nrows exit_df = length inputs
        /\ report_tab (reruns inputs w)
           = {| shown := (sections_shown consent_df demographic_df task_df exit_df
                          ++ averages_shown (mean_of (satisfactions inputs))
                               (mean_of (difficulties inputs)))%list;
                after := reruns inputs w;
                result := inr tt |})
  /\ (forall w first second consent_df demographic_df task_df,
      load_from_csv CONSENT_CSV (fs w) = inr consent_df ->
      load_from_csv DEMOGRAPHIC_CSV (fs w) = inr demographic_df ->
      load_from_csv TASK_CSV (fs w) = inr task_df ->
      fs w !! EXIT_CSV = None ->
      exit_submission first -> exit_submission second ->
      (satisfaction (fst first) = 4%Z /\ satisfaction (fst second) = 2%Z)
      \/ (satisfaction (fst first) = 2%Z /\ satisfaction (fst second) = 4%Z) ->
      In (st_write "**Average Satisfaction**: 3.00")
         (shown (report_tab (reruns [first; second] w))))
  /\ (forall i c w, pressed i = None -> main i c w = report_tab w)
  /\ (forall s m e,
      format_2f false (S754_finite s m e)
      = (if s then "-" else "") +:+ of_Z (hundredths m e / 100) +:+ "."
        +:+ pad2 (Z.to_nat (hundredths m e mod 100))
      /\ String.length (pad2 (Z.to_nat (hundredths m e mod 100))) = 2
      /\ (0 <= hundredths m e)%Z
      /\ ((0 <= e)%Z -> hundredths m e = (Z.pos m * 100 * 2 ^ e)%Z)
      /\ ((e < 0)%Z ->
          (2 * Z.abs (Z.pos m * 100 - hundredths m e * 2 ^ (- e)) <= 2 ^ (- e))%Z
          /\ ((2 * Z.abs (Z.pos m * 100 - hundredths m e * 2 ^ (- e)) = 2 ^ (- e))%Z ->
              Z.even (hundredths m e) = true)))
  /\ (format_2f false (mean_of [4; 5]%Z) = "4.50"
      /\ format_2f false (mean_of [1; 2; 2]%Z) = "1.67"
      /\ format_2f false (mean_of [5; 4; 4]%Z) = "4.33"
      /\ format_2f false (mean_of [2; 1; 1; 1; 1; 1; 1; 1]%Z) = "1.12"
      /\ format_2f false (mean_of [4; 1; 1; 1; 1; 1; 1; 1]%Z) = "1.38"
      /\ format_2f false (mean_of [5; 5; 5]%Z) = "5.00").
Proof.
  split; [intros w e _; apply report_tab_inv |].
  split; [exact report_tab_run |].
  split; [exact report_after_exit_submissions |].
  split; [| split; [exact main_idle | split]].
  - intros w first second cdf ddf tdf Hc Hd Ht He H1 H2 Hsat.
    assert (5 * Z.of_nat (length [first; second]) <= 2 ^ 53)%Z as Hn by now vm_compute.
    assert (Forall exit_submission [first; second]) as Hall
      by (constructor; [exact H1 | constructor; [exact H2 | constructor]]).
    destruct (report_after_exit_submissions w [first; second] cdf ddf tdf Hc Hd Ht He Hall
                ltac:(discriminate) Hn) as (edf & _ & _ & ->).
    cbn [shown]. apply in_or_app. right. right. left.
    unfold satisfactions. cbn [map].
    destruct Hsat as [[-> ->] | [-> ->]]; reflexivity.
  - intros s m e. destruct (hundredths_nearest m e) as (H0 & H1 & H2).
    split; [destruct s; reflexivity | split; [| split; [exact H0 | split; [exact H1 | exact H2]]]].
    apply pad2_length.
    pose proof (Z.mod_pos_bound (hundredths m e) 100 ltac:(lia)). lia.
  - repeat split; vm_compute; reflexivity.
Qed.
(** ** Every rerun, on every file *)

Lemma is_prefix_trans (a b c : string) : is_prefix a b -> is_prefix b c -> is_prefix a c.
Proof. intros [x ->] [y ->]. exists (x +:+ y). apply append_assoc. Qed.

Lemma is_prefix_refl (s : string) : is_prefix s s.
Proof. exists "". now rewrite append_nil_r. Qed.

(** The files after a rerun are the files before it, with the record the
    rerun persists saved to its file. *)
Lemma main_fs i c w :
  fs (after (main i c w))
  = match persisted i c w with
    | Some (csv_file, data_dict) => save_to_csv data_dict csv_file (fs w)
    | None => fs w
    end.
Proof.
  rewrite main_after. unfold transition, persisted.
  destruct (pressed i) as [[]|]; try reflexivity.
  - destruct (consent_given i); reflexivity.
  - destruct (_ || _); reflexivity.
  - destruct (_ !! "start_time"); reflexivity.
Qed.

Lemma persisted_file i c w csv_file data_dict :
  persisted i c w = Some (csv_file, data_dict) -> file_of_rerun i = Some csv_file.
Proof.
  unfold persisted, file_of_rerun.
  destruct (pressed i) as [[]|]; try discriminate.
  - destruct (consent_given i); [|discriminate]. now intros [= <- _].
  - destruct (_ || _); [discriminate|]. now intros [= <- _].
  - now intros [= <- _].
  - now intros [= <- _].
Qed.

Lemma persisted_keys i c w csv_file data_dict :
  persisted i c w = Some (csv_file, data_dict) ->
  (csv_file = CONSENT_CSV /\ keys data_dict = consent_header)
  \/ (csv_file = DEMOGRAPHIC_CSV /\ keys data_dict = demographic_header)
  \/ (csv_file = TASK_CSV /\ keys data_dict = task_header)
  \/ (csv_file = EXIT_CSV /\ keys data_dict = exit_header).
Proof.
  unfold persisted.
  destruct (pressed i) as [[]|]; try discriminate.
  - destruct (consent_given i); [|discriminate]. intros [= <- <-]. now left.
  - destruct (_ || _); [discriminate|]. intros [= <- <-]. right. now left.
  - intros [= <- <-]. right. right. now left.
  - intros [= <- <-]. right. right. now right.
Qed.

Lemma reruns_cons ic inputs w :
  reruns (ic :: inputs) w = reruns inputs (after (main (fst ic) (snd ic) w)).
Proof. reflexivity. Qed.

(** X1. No rerun, and no sequence of reruns, takes anything back: a file that
    is there stays there, and its contents before are an initial segment of
    its contents after. *)
Theorem reruns_only_append (inputs : list (widgets * clock)) (w : world)
    (path old : string) :
  fs w !! path = Some old ->
  exists new, fs (reruns inputs w) !! path = Some new /\ is_prefix old new.
Proof.
  revert w old. induction inputs as [|ic inputs IH]; intros w old Hold.
  - exists old. split; [exact Hold | apply is_prefix_refl].
  - rewrite reruns_cons.
    assert (exists mid, fs (after (main (fst ic) (snd ic) w)) !! path = Some mid
                        /\ is_prefix old mid) as (mid & Hmid & Hpre).
    { rewrite main_fs. destruct (persisted _ _ _) as [[f d]|].
      - destruct (decide (f = path)) as [-> | Hne].
        + rewrite save_to_csv_lookup, Hold. eexists. split; [reflexivity|].
          apply is_prefix_append.
        + rewrite save_to_csv_other by exact Hne. exists old.
          split; [exact Hold | apply is_prefix_refl].
      - exists old. split; [exact Hold | apply is_prefix_refl]. }
    destruct (IH _ _ Hmid) as (new & Hnew & Hpre').
    exists new. split; [exact Hnew | now apply (is_prefix_trans old mid new)].
Qed.

(** X2. A rerun writes to the file of the button that was pressed and to no
    other: a path that is not that file keeps its contents, whether it is
    there or not, so the timer buttons and a rerun without a button change no
    file; and the session state changes only on the three buttons of the task
    tab. *)
Theorem rerun_writes_own_file (i : widgets) (c : clock) (w : world) :
  (forall path, file_of_rerun i <> Some path ->
     fs (after (main i c w)) !! path = fs w !! path)
  /\ (pressed i <> Some Start_Task_Timer -> pressed i <> Some Stop_Task_Timer ->
      pressed i <> Some Save_Task_Results ->
      session_state (after (main i c w)) = session_state w).
Proof.
  split.
  - intros path Hpath. rewrite main_fs.
    destruct (persisted i c w) as [[f d]|] eqn:Hper; [|reflexivity].
    apply save_to_csv_other. intros ->.
    apply Hpath. now apply (persisted_file i c w _ d).
  - intros H1 H2 H3. rewrite main_after. unfold transition.
    destruct (pressed i) as [[]|]; try reflexivity; try congruence.
    + destruct (consent_given i); reflexivity.
    + destruct (_ || _); reflexivity.
Qed.

Lemma save_keeps_section_invariant header data_dict csv_file files :
  keys data_dict = header ->
  section_invariant header (files !! csv_file) ->
  section_invariant header (save_to_csv data_dict csv_file files !! csv_file).
Proof.
  intros Hkeys Hinv. rewrite save_to_csv_lookup.
  assert (length (value_row data_dict) = length header) as Hlen
    by (subst header; unfold value_row, keys, values; now rewrite !length_map).
  destruct (files !! csv_file) as [old|]; simpl in *.
  - destruct Hinv as (table & Hne & -> & Hall).
    exists (table ++ [value_row data_dict])%list. split; [|split].
    + destruct table; discriminate.
    + unfold section_file. rewrite map_app, cat_app, append_assoc. simpl.
      now rewrite append_nil_r.
    + apply Forall_app. split; [exact Hall | now constructor].
  - exists [value_row data_dict]. split; [discriminate | split].
    + unfold section_file. simpl. now rewrite append_nil_r, Hkeys.
    + now constructor.
Qed.

(** X3. The files of the program never get the mismatch that [save_to_csv]
    lets through: in every world the program reaches, each of the four data
    files, when it is there, is the header line of its own section followed by
    at least one line, and every line has as many fields as the header. *)
Theorem reachable_files_keep_their_schema (w : world) :
  reachable w ->
  section_invariant consent_header (fs w !! CONSENT_CSV)
  /\ section_invariant demographic_header (fs w !! DEMOGRAPHIC_CSV)
  /\ section_invariant task_header (fs w !! TASK_CSV)
  /\ section_invariant exit_header (fs w !! EXIT_CSV).
Proof.
  destruct paths_distinct as (P1 & P2 & P3 & P4 & P5 & P6).
  induction 1 as [w (Hc & Hd & Ht & He) | i c w _ (Ic & Id & It & Ie)].
  - rewrite Hc, Hd, Ht, He. repeat split.
  - rewrite main_fs.
    destruct (persisted i c w) as [[f d]|] eqn:Hper; [|now repeat split].
    destruct (persisted_keys i c w f d Hper)
      as [[-> Hk] | [[-> Hk] | [[-> Hk] | [-> Hk]]]];
      repeat split;
      first [ now apply save_keeps_section_invariant
            | rewrite save_to_csv_other by congruence; assumption ].
Qed.

(** ** The demographic file holds the accepted submissions *)

Lemma accepted_persisted ic w :
  accepted ic = true ->
  persisted (fst ic) (snd ic) w
  = Some (DEMOGRAPHIC_CSV, demographic_record (fst ic) (snd ic)).
Proof.
  unfold accepted, persisted.
  destruct (pressed (fst ic)) as [[]|]; try discriminate.
  destruct (_ || _); [discriminate | reflexivity].
Qed.

Lemma not_accepted_persisted ic w :
  accepted ic = false ->
  forall csv_file data_dict,
    persisted (fst ic) (snd ic) w = Some (csv_file, data_dict) ->
    csv_file <> DEMOGRAPHIC_CSV.
Proof.
  destruct paths_distinct as (P1 & P2 & P3 & P4 & P5 & P6).
  unfold accepted, persisted. intros Hacc f d.
  destruct (pressed (fst ic)) as [[]|]; try discriminate.
  - destruct (consent_given (fst ic)); [|discriminate]. intros [= <- _]. congruence.
  - destruct (_ || _); [discriminate|]. discriminate Hacc.
  - intros [= <- _]. congruence.
  - intros [= <- _]. congruence.
Qed.

Lemma demographic_contents_snoc done ic :
  match demographic_contents done with
  | None => writerow (keys (demographic_record (fst ic) (snd ic)))
            +:+ writerow (value_row (demographic_record (fst ic) (snd ic)))
  | Some old => old +:+ writerow (value_row (demographic_record (fst ic) (snd ic)))
  end
  = section_file demographic_header
      (map (fun ic' => demographic_row (fst ic') (snd ic')) (done ++ [ic])%list).
Proof.
  destruct done as [|d done].
  - unfold section_file. simpl. now rewrite append_nil_r.
  - cbn [demographic_contents]. unfold section_file.
    rewrite !map_app, cat_app, append_assoc. simpl. now rewrite append_nil_r.
Qed.

Lemma demographic_file_after inputs : forall done w,
  fs w !! DEMOGRAPHIC_CSV = demographic_contents done ->
  fs (reruns inputs w) !! DEMOGRAPHIC_CSV
  = demographic_contents (done ++ List.filter accepted inputs)%list.
Proof.
  induction inputs as [|ic inputs IH]; intros done w Hdone.
  - simpl. now rewrite app_nil_r.
  - rewrite reruns_cons. cbn [List.filter]. destruct (accepted ic) eqn:Hacc.
    + replace (done ++ ic :: List.filter accepted inputs)%list
        with ((done ++ [ic]) ++ List.filter accepted inputs)%list by now rewrite <- app_assoc.
      apply IH. rewrite main_fs, (accepted_persisted ic w Hacc).
      rewrite save_to_csv_lookup, Hdone, demographic_contents_snoc.
      destruct done; reflexivity.
    + apply IH. rewrite main_fs.
      destruct (persisted (fst ic) (snd ic) w) as [[f d]|] eqn:Hper; [|exact Hdone].
      rewrite save_to_csv_other; [exact Hdone|].
      apply (not_accepted_persisted ic w Hacc f d Hper).
Qed.

Lemma Z_text_chars (z : Z) : Text.forallb stamp_char (of_Z z) = true.
Proof.
  unfold of_Z, NilZero.string_of_int.
  assert (forall d, Text.forallb stamp_char (NilZero.string_of_uint d) = true) as Hd.
  { intros d. apply digit_stamp_char. unfold NilZero.string_of_uint.
    destruct d; try reflexivity; apply uint_digits. }
  destruct (Z.to_int z) as [d|d]; [apply Hd|].
  change (String "-" (NilZero.string_of_uint d))
    with ("-" +:+ NilZero.string_of_uint d).
  now rewrite forallb_append, Hd.
Qed.

Lemma Z_text_no_CR (z : Z) : no_CR (of_Z z) = true.
Proof.
  unfold no_CR. eapply forallb_weaken; [apply stamp_char_no_CR | apply Z_text_chars].
Qed.

Lemma demographic_row_sound i c :
  no_CR (name i) = true -> no_CR (occupation i) = true ->
  sound_row (demographic_row i c) = true.
Proof.
  intros Hn Ho. unfold sound_row, demographic_row. cbn [visible List.forallb].
  rewrite strftime_no_CR, Hn, Z_text_no_CR, Ho.
  destruct (familiarity i); reflexivity.
Qed.

(** X4. From a data folder without the files, after any reruns whatever, the
    demographic file holds the submissions that passed the two checks, all of
    them, in the order they were made, and nothing of the others: it is
    missing when none passed, and else it is the header line followed by one
    line per submission.  Read back, it gives one row per such submission
    under the five labels of the header, with the time stamps of the
    submissions down the first column in that order, when the names and
    occupations hold no carriage return. *)
Theorem demographic_file_is_the_accepted_submissions
    (inputs : list (widgets * clock)) (w : world) :
  fresh w ->
  fs (reruns inputs w) !! DEMOGRAPHIC_CSV = demographic_contents (List.filter accepted inputs)
  /\ (Forall (fun ic => no_CR (name (fst ic)) = true /\ no_CR (occupation (fst ic)) = true)
        (List.filter accepted inputs) ->
      exists df,
        load_from_csv DEMOGRAPHIC_CSV (fs (reruns inputs w)) = inr df
        /\ nrows df = length (List.filter accepted inputs)
        /\ (List.filter accepted inputs <> [] ->
            columns df = demographic_header
            /\ getitem df "timestamp"
               = Some (map (fun ic => Some (strftime (localtime (snd ic))))
                         (List.filter accepted inputs)))).
Proof.
  intros (_ & Hd & _).
  assert (fs (reruns inputs w) !! DEMOGRAPHIC_CSV
          = demographic_contents (List.filter accepted inputs)) as Hfile
    by (apply (demographic_file_after inputs [] w); exact Hd).
  split; [exact Hfile|]. intros Hall. unfold load_from_csv. rewrite Hfile.
  set (row := fun ic : widgets * clock => demographic_row (fst ic) (snd ic)).
  remember (List.filter accepted inputs) as acc eqn:Hacc. clear Hacc Hfile.
  assert (List.forallb sound_row (map row acc) = true) as Hsound.
  { induction Hall as [|x xs [Hn Ho] _ IH]; [reflexivity|].
    cbn [map List.forallb]. unfold row at 1.
    now rewrite (demographic_row_sound _ _ Hn Ho), IH. }
  assert (Forall (fun line => length line = length demographic_header) (map row acc))
    as Hlen by (clear; induction acc; constructor; [reflexivity | assumption]).
  destruct acc as [|ic rest].
  { exists DataFrame_empty. split; [reflexivity | split; [reflexivity |]]. now intros []. }
  cbn [demographic_contents]. unfold section_file. fold row.
  rewrite (read_csv_written demographic_header (map row (ic :: rest)) eq_refl Hsound Hlen).
  eexists. split; [reflexivity|]. split.
  - unfold nrows. cbn [rows]. now rewrite length_map.
  - intros _. split; [reflexivity|].
    unfold getitem. cbn [columns rows].
    change (position "timestamp" demographic_header) with (Some 0).
    cbn [fmap option_fmap option_map]. now rewrite map_map.
Qed.

(** ** A rerun, tab by tab *)

Lemma bind_stop {A B} (m : script A) (k : A -> script B) w s w' e :
  m w = {| shown := s; after := w'; result := inl e |} ->
  bind m k w = {| shown := s; after := w'; result := inl e |}.
Proof. intros H. unfold bind. rewrite H. reflexivity. Qed.

Lemma consent_tab_skip i c w :
  st_button i Submit_Consent = false ->
  consent_tab i c w = {| shown := []; after := w; result := inr tt |}.
Proof. intros H. unfold consent_tab, when. now rewrite H. Qed.

Lemma demographics_tab_skip i c w :
  st_button i Submit_Demographics = false ->
  demographics_tab i c w = {| shown := []; after := w; result := inr tt |}.
Proof. intros H. unfold demographics_tab, when. now rewrite H. Qed.

Lemma tasks_tab_skip i c w :
  st_button i Start_Task_Timer = false -> st_button i Stop_Task_Timer = false ->
  st_button i Save_Task_Results = false ->
  tasks_tab i c w = {| shown := []; after := w; result := inr tt |}.
Proof. intros H1 H2 H3. unfold tasks_tab, when. now rewrite H1, H2, H3. Qed.

Lemma exit_tab_skip i c w :
  st_button i Submit_Exit_Questionnaire = false ->
  exit_tab i c w = {| shown := []; after := w; result := inr tt |}.
Proof. intros H. unfold exit_tab, when. now rewrite H. Qed.

Lemma GIF_is_no_data_file :
  GIF <> CONSENT_CSV /\ GIF <> DEMOGRAPHIC_CSV /\ GIF <> TASK_CSV /\ GIF <> EXIT_CSV.
Proof. repeat split; intros H; vm_compute in H; discriminate H. Qed.

(** The exit tab on a submission: the record is saved, then the GIF is
    opened. *)
Lemma exit_tab_run i c w :
  st_button i Submit_Exit_Questionnaire = true ->
  exit_tab i c w
  = let w' := with_fs (save_to_csv (exit_record i c) EXIT_CSV (fs w)) w in
    match fs w !! GIF with
    | None => {| shown := []; after := w'; result := inl (Raised FileNotFoundError) |}
    | Some contents => {| shown := exit_shown contents; after := w'; result := inr tt |}
    end.
Proof.
  intros H. destruct GIF_is_no_data_file as (_ & _ & _ & Hgif).
  unfold exit_tab, when. rewrite H. unfold bind, update_fs, get_fs. simpl.
  rewrite save_to_csv_other by congruence.
  destruct (fs w !! GIF); reflexivity.
Qed.

(** X5. An exit submission is saved before the GIF is opened.  Whatever the
    answers, the rerun writes the line of the submission at the end of the
    exit file.  When the GIF is missing the rerun then stops on
    FileNotFoundError: nothing is shown, neither the success nor the report,
    and the line is in the file all the same.  When the GIF is there the
    success, the GIF and the video are shown, and the rerun goes on to the
    report. *)
Theorem exit_saved_before_gif (i : widgets) (c : clock) (w : world) :
  pressed i = Some Submit_Exit_Questionnaire ->
  let w' := with_fs (save_to_csv (exit_record i c) EXIT_CSV (fs w)) w in
  fs w' !! EXIT_CSV
  = Some match fs w !! EXIT_CSV with
         | None => writerow exit_header +:+ writerow (exit_row (i, c))
         | Some old => old +:+ writerow (exit_row (i, c))
         end
  /\ (fs w !! GIF = None ->
      main i c w = {| shown := []; after := w'; result := inl (Raised FileNotFoundError) |})
  /\ (forall contents, fs w !! GIF = Some contents ->
      main i c w
      = {| shown := (exit_shown contents ++ shown (report_tab w'))%list;
           after := w';
           result := result (report_tab w') |}).
Proof.
  intros Hp w'.
  assert (main i c w = (_ <- exit_tab i c;; report_tab)%script w) as Hmain.
  { unfold main.
    rewrite (bind_run _ _ _ _ _ _ (consent_tab_skip i c w ltac:(unfold st_button; now rewrite Hp))).
    rewrite (bind_run _ _ _ _ _ _
               (demographics_tab_skip i c w ltac:(unfold st_button; now rewrite Hp))).
    rewrite (bind_run _ _ _ _ _ _
               (tasks_tab_skip i c w ltac:(unfold st_button; now rewrite Hp)
                  ltac:(unfold st_button; now rewrite Hp)
                  ltac:(unfold st_button; now rewrite Hp))).
    cbn [shown after result app]. apply run_eta. }
  pose proof (exit_tab_run i c w ltac:(unfold st_button; now rewrite Hp)) as Hexit.
  cbv zeta in Hexit. fold w' in Hexit.
  split; [apply save_to_csv_lookup | split].
  - intros Hgif. rewrite Hmain. rewrite Hgif in Hexit.
    now apply bind_stop.
  - intros contents Hgif. rewrite Hmain. rewrite Hgif in Hexit.
    rewrite (bind_run _ _ _ _ _ _ Hexit). f_equal. apply report_tab_read_only.
Qed.

(** ** The task timer *)

Lemma bind_skip_inner {A} (m1 : script A) (m2 k : script unit) w :
  (forall w', m2 w' = {| shown := []; after := w'; result := inr tt |}) ->
  bind m1 (fun _ => bind m2 (fun _ => k)) w = bind m1 (fun _ => k) w.
Proof.
  intros H. unfold bind. destruct (result (m1 w)); [reflexivity|].
  rewrite H. reflexivity.
Qed.

Lemma main_is_tasks_then_report i c w :
  st_button i Submit_Consent = false -> st_button i Submit_Demographics = false ->
  st_button i Submit_Exit_Questionnaire = false ->
  main i c w = (_ <- tasks_tab i c;; report_tab)%script w.
Proof.
  intros H1 H2 H3. unfold main.
  rewrite (bind_run _ _ _ _ _ _ (consent_tab_skip i c w H1)).
  rewrite (bind_run _ _ _ _ _ _ (demographics_tab_skip i c w H2)).
  cbn [shown after result app]. rewrite run_eta.
  apply bind_skip_inner. intros w'. now apply exit_tab_skip.
Qed.

Lemma tasks_tab_stop i c w :
  pressed i = Some Stop_Task_Timer ->
  tasks_tab i c w
  = match session_state w !! "start_time" with
    | None => {| shown := []; after := w; result := inr tt |}
    | Some start_time =>
        let duration := float_sub (time c) start_time in
        {| shown := [st_success ("Task completed in " +:+ format_2f true duration
                                 +:+ " seconds!")];
           after := with_session (<["task_duration" := duration]> (session_state w)) w;
           result := inr tt |}
    end.
Proof.
  intros Hp. unfold tasks_tab, st_button, when. rewrite Hp. simpl button_eqb. cbv iota.
  unfold bind, get_session, ret. simpl.
  destruct (session_state w !! "start_time"); reflexivity.
Qed.

(** X6. The stop button.  When the timer was never started the rerun is the
    report and nothing else: no state changes and no duration is announced.
    When it was started at [start_time] the rerun announces the time of the
    clock minus [start_time] with two decimals, keeps it as the duration, and
    leaves the start in place, so that stopping again measures from the same
    start. *)
Theorem stop_task_timer (i : widgets) (c : clock) (w : world) :
  pressed i = Some Stop_Task_Timer ->
  (session_state w !! "start_time" = None -> main i c w = report_tab w)
  /\ (forall start_time, session_state w !! "start_time" = Some start_time ->
      let duration := float_sub (time c) start_time in
      let w' := with_session (<["task_duration" := duration]> (session_state w)) w in
      main i c w
      = {| shown := (st_success ("Task completed in " +:+ format_2f true duration
                                 +:+ " seconds!")
                     :: shown (report_tab w'));
           after := w';
           result := result (report_tab w') |}
      /\ session_state w' !! "task_duration" = Some duration
      /\ session_state w' !! "start_time" = Some start_time
      /\ fs w' = fs w).
Proof.
  intros Hp.
  assert (main i c w = (_ <- tasks_tab i c;; report_tab)%script w) as Hmain
    by (apply main_is_tasks_then_report; unfold st_button; now rewrite Hp).
  pose proof (tasks_tab_stop i c w Hp) as Htab.
  split.
  - intros Hnone. rewrite Hnone in Htab. rewrite Hmain, (bind_run _ _ _ _ _ _ Htab).
    apply run_eta.
  - intros start_time Hstart duration w'. rewrite Hstart in Htab. cbv zeta in Htab.
    fold duration in Htab. fold w' in Htab.
    split; [| split; [| split]].
    + rewrite Hmain, (bind_run _ _ _ _ _ _ Htab). f_equal. apply report_tab_read_only.
    + unfold w', with_session. cbn [session_state]. apply lookup_insert_eq.
    + unfold w', with_session. cbn [session_state].
      now rewrite lookup_insert_ne by discriminate.
    + reflexivity.
Qed.

(** X7. Saving the task results empties the timer: after the rerun the
    session state holds neither the start nor the duration, whatever it held
    before.  So a second save that follows with no timing in between writes
    its record with an empty [duration_seconds], after the line of the
    first. *)
Theorem save_clears_the_timer (i i' : widgets) (c c' : clock) (w : world) :
  pressed i = Some Save_Task_Results ->
  let w' := after (main i c w) in
  session_state w' !! "start_time" = None
  /\ session_state w' !! "task_duration" = None
  /\ (pressed i' = Some Save_Task_Results ->
      exists first,
        fs w' !! TASK_CSV = Some first
        /\ fs (after (main i' c' w')) !! TASK_CSV
           = Some (first +:+ writerow (value_row (task_record i' c' None)))
        /\ value_row (task_record i' c' None) !! 3 = Some "").
Proof.
  intros Hp w'.
  assert (session_state w' = delete "task_duration" (delete "start_time" (session_state w)))
    as Hs by (unfold w'; rewrite main_after; unfold transition; now rewrite Hp).
  assert (session_state w' !! "task_duration" = None) as Hd
    by (rewrite Hs; apply lookup_delete_eq).
  split; [| split; [exact Hd|]].
  - rewrite Hs. rewrite lookup_delete_ne by discriminate. apply lookup_delete_eq.
  - intros Hp'. eexists. split.
    + unfold w'. apply (save_task_file i c w Hp).
    + split; [|reflexivity].
      rewrite (save_task_file i' c' w' Hp'). cbv zeta. rewrite Hd.
      unfold w'. now rewrite (save_task_file i c w Hp).
Qed.

(** X8. The start button sets the start to the time of the clock and leaves
    a duration already measured where it is.  So when the timer is started
    again and the results are saved without stopping it, the record holds the
    duration of the run before. *)
Theorem restart_keeps_measured_duration (i i' : widgets) (c c' : clock) (w : world)
    (d : spec_float) :
  pressed i = Some Start_Task_Timer ->
  session_state w !! "task_duration" = Some d ->
  let w' := after (main i c w) in
  session_state w' !! "start_time" = Some (time c)
  /\ session_state w' !! "task_duration" = Some d
  /\ fs w' = fs w
  /\ (pressed i' = Some Save_Task_Results -> float_truthy d = true ->
      dict_get (task_record i' c' (session_state w' !! "task_duration")) "duration_seconds"
      = Some (VFloat d)
      /\ fs (after (main i' c' w')) !! TASK_CSV
         = Some (let record := task_record i' c' (Some d) in
                 match fs w !! TASK_CSV with
                 | None => writerow task_header +:+ writerow (value_row record)
                 | Some old => old +:+ writerow (value_row record)
                 end)).
Proof.
  intros Hp Hd w'.
  assert (w' = with_session (<["start_time" := time c]> (session_state w)) w) as Hw
    by (unfold w'; rewrite main_after; unfold transition; now rewrite Hp).
  assert (session_state w' !! "task_duration" = Some d) as Hd'
    by (rewrite Hw; unfold with_session; cbn [session_state];
        now rewrite lookup_insert_ne by discriminate).
  split; [| split; [exact Hd' | split]].
  - rewrite Hw. unfold with_session. cbn [session_state]. apply lookup_insert_eq.
  - now rewrite Hw.
  - intros Hp' Ht. rewrite Hd'. split.
    + unfold task_record, duration_field. cbn [dict_get String.eqb Ascii.eqb Bool.eqb].
      now rewrite Ht.
    + rewrite (save_task_file i' c' w' Hp'). cbv zeta. rewrite Hd'. now rewrite Hw.
Qed.

(** ** Files without rows, files that do not load *)

Lemma blank_char_cases (c : ascii) :
  blank_char c = true -> c = LF \/ c = CR \/ c = SPACE \/ c = TAB.
Proof.
  unfold blank_char, IS_TERMINATOR, IS_CARRIAGE, IS_WHITESPACE. intros H.
  repeat (apply orb_true_iff in H as [H|H]); apply Ascii.eqb_eq in H; auto.
Qed.

Lemma tokenize_blank_byte (p : parser_t) (c : ascii) :
  blank_char c = true -> skipping p -> skipping (tokenize_byte p c).
Proof.
  intros Hc ([Hs | [Hs | Hs]] & Hf & Hl); destruct p as [s wd fs ls]; simpl in *; subst;
    destruct (blank_char_cases c Hc) as [-> | [-> | [-> | ->]]];
    unfold skipping; simpl; auto.
Qed.

Lemma tokenize_blank_text (text : string) : forall p,
  Text.forallb blank_char text = true -> skipping p -> skipping (tokenize_bytes text p).
Proof.
  induction text as [|c text IH]; intros p H Hp; [exact Hp|].
  simpl in H. apply andb_true_iff in H as [Hc Htext].
  simpl. apply IH; [exact Htext | now apply tokenize_blank_byte].
Qed.


Lemma report_section_stop title nothing csv_file w e :
  load_from_csv csv_file (fs w) = inl e ->
  report_section title nothing csv_file w
  = {| shown := [st_write title]; after := w; result := inl (Raised e) |}.
Proof.
  intros H. unfold report_section, bind, get_fs, returned, display. simpl.
  now rewrite H.
Qed.

(** X10. The report stops at the first file that does not load: it shows the
    sections before it, the title of the section of that file, and ends on
    the exception of [read_csv]; nothing of the later sections is shown. *)
Theorem report_stops_at_first_bad_file (w : world) (e : exn) :
  (load_from_csv CONSENT_CSV (fs w) = inl e ->
   report_tab w
   = {| shown := [st_write "**Consent Data**"]; after := w; result := inl (Raised e) |})
  /\ (forall consent_df,
      load_from_csv CONSENT_CSV (fs w) = inr consent_df ->
      load_from_csv DEMOGRAPHIC_CSV (fs w) = inl e ->
      report_tab w
      = {| shown := (section_shown "**Consent Data**" "No consent data available yet."
                       consent_df
                     ++ [st_write "**Demographic Data**"])%list;
           after := w; result := inl (Raised e) |})
  /\ (forall consent_df demographic_df,
      load_from_csv CONSENT_CSV (fs w) = inr consent_df ->
      load_from_csv DEMOGRAPHIC_CSV (fs w) = inr demographic_df ->
      load_from_csv TASK_CSV (fs w) = inl e ->
      report_tab w
      = {| shown := (section_shown "**Consent Data**" "No consent data available yet."
                       consent_df
                     ++ section_shown "**Demographic Data**"
                          "No demographic data available yet." demographic_df
                     ++ [st_write "**Task Performance Data**"])%list;
           after := w; result := inl (Raised e) |})
  /\ (forall consent_df demographic_df task_df,
      load_from_csv CONSENT_CSV (fs w) = inr consent_df ->
      load_from_csv DEMOGRAPHIC_CSV (fs w) = inr demographic_df ->
      load_from_csv TASK_CSV (fs w) = inr task_df ->
      load_from_csv EXIT_CSV (fs w) = inl e ->
      report_tab w
      = {| shown := (section_shown "**Consent Data**" "No consent data available yet."
                       consent_df
                     ++ section_shown "**Demographic Data**"
                          "No demographic data available yet." demographic_df
                     ++ section_shown "**Task Performance Data**"
                          "No task data available yet." task_df
                     ++ [st_write "**Exit Questionnaire Data**"])%list;
           after := w; result := inl (Raised e) |}).
Proof.
  unfold report_tab. split; [| split; [| split]].
  - intros Hc. apply bind_stop. now apply report_section_stop.
  - intros cdf Hc Hd.
    rewrite (bind_run _ _ _ _ _ _ (report_section_run _ _ _ _ _ Hc)).
    rewrite (bind_stop _ _ _ _ _ _ (report_section_stop _ _ _ _ _ Hd)).
    reflexivity.
  - intros cdf ddf Hc Hd Ht.
    rewrite (bind_run _ _ _ _ _ _ (report_section_run _ _ _ _ _ Hc)).
    rewrite (bind_run _ _ _ _ _ _ (report_section_run _ _ _ _ _ Hd)).
    rewrite (bind_stop _ _ _ _ _ _ (report_section_stop _ _ _ _ _ Ht)).
    cbn [shown after result]. unfold section_shown. cbn [app]. reflexivity.
  - intros cdf ddf tdf Hc Hd Ht He.
    rewrite (bind_run _ _ _ _ _ _ (report_section_run _ _ _ _ _ Hc)).
    rewrite (bind_run _ _ _ _ _ _ (report_section_run _ _ _ _ _ Hd)).
    rewrite (bind_run _ _ _ _ _ _ (report_section_run _ _ _ _ _ Ht)).
    rewrite (bind_stop _ _ _ _ _ _ (report_section_stop _ _ _ _ _ He)).
    cbn [shown after result]. unfold section_shown. cbn [app]. reflexivity.
Qed.

Lemma column_mean_missing df label w :
  getitem df label = None ->
  column_mean df label w = {| shown := []; after := w; result := inl (Raised KeyError) |}.
Proof. intros H. unfold column_mean. now rewrite H. Qed.

(** X11. When the exit frame has rows but lacks the [satisfaction] column, or
    has it and lacks the [difficulty] column, the report shows the four
    sections and the subheader of the averages and ends on KeyError: no
    average is written unless both are computed. *)
Theorem report_without_rating_column (w : world)
    (consent_df demographic_df task_df exit_df : DataFrame string) :
  load_from_csv CONSENT_CSV (fs w) = inr consent_df ->
  load_from_csv DEMOGRAPHIC_CSV (fs w) = inr demographic_df ->
  load_from_csv TASK_CSV (fs w) = inr task_df ->
  load_from_csv EXIT_CSV (fs w) = inr exit_df ->
  empty exit_df = false ->
  getitem exit_df "satisfaction" = None
  \/ (exists cells m, getitem exit_df "satisfaction" = Some cells
                      /\ Series_mean cells = Some m
                      /\ getitem exit_df "difficulty" = None) ->
  report_tab w
  = {| shown := (sections_shown consent_df demographic_df task_df exit_df
                 ++ [st_subheader "Exit Questionnaire Averages"])%list;
       after := w; result := inl (Raised KeyError) |}.
Proof.
  intros Hc Hd Ht He Hempty Hmissing. unfold report_tab.
  rewrite (bind_run _ _ _ _ _ _ (report_section_run _ _ _ _ _ Hc)).
  rewrite (bind_run _ _ _ _ _ _ (report_section_run _ _ _ _ _ Hd)).
  rewrite (bind_run _ _ _ _ _ _ (report_section_run _ _ _ _ _ Ht)).
  rewrite (bind_run _ _ _ _ _ _ (report_section_run _ _ _ _ _ He)).
  rewrite Hempty. cbn [negb].
  rewrite (bind_run _ _ w [st_subheader "Exit Questionnaire Averages"] w tt eq_refl).
  destruct Hmissing as [Hs | (cells & m & Hs & Hm & Hdiff)].
  - rewrite (bind_stop _ _ _ _ _ _ (column_mean_missing _ _ _ Hs)).
    cbn [shown after result]. unfold sections_shown, section_shown. cbn [app].
    rewrite ?Hempty. reflexivity.
  - rewrite (bind_run _ _ _ _ _ _ (column_mean_run _ _ _ _ _ Hs Hm)).
    rewrite (bind_stop _ _ _ _ _ _ (column_mean_missing _ _ _ Hdiff)).
    cbn [shown after result]. unfold sections_shown, section_shown. cbn [app].
    rewrite ?Hempty. reflexivity.
Qed.

End Facts.

(** * Concrete runs *)

#[local] Existing Instance two_decimals.

Lemma empty_world_fresh : fresh empty_world.
Proof. repeat split. Qed.

Lemma consent_persisted_iff_given_witness :
  pressed (form (Some Submit_Consent)) = Some Submit_Consent
  /\ consent_given (form (Some Submit_Consent)) = true
  /\ reachable empty_world
  /\ exists df',
       load_from_csv CONSENT_CSV
         (fs (after (main (form (Some Submit_Consent)) noon empty_world)))
       = inr df'
       /\ rows df' = [["2025-03-14 12:00:00"; "True"]].
Proof.
  assert (reachable empty_world) as Hreach
    by (apply reachable_fresh, empty_world_fresh).
  split; [reflexivity | split; [reflexivity | split; [exact Hreach|]]].
  destruct (consent_persisted_iff_given (form (Some Submit_Consent)) noon
              empty_world eq_refl) as [Hgiven _].
  destruct (Hgiven eq_refl) as (_ & Hload).
  destruct (Hload Hreach) as (df & df' & Hbefore & Hafter & Hrows & _).
  exists df'. split; [exact Hafter|].
  rewrite Hrows. injection Hbefore as <-. reflexivity.
Defined.

Lemma demographic_rejected_iff_witness :
  pressed (form (Some Submit_Demographics)) = Some Submit_Demographics
  /\ fs (after (main (form (Some Submit_Demographics)) noon empty_world))
       !! DEMOGRAPHIC_CSV
     = Some (writerow demographic_header
             +:+ writerow ["2025-03-14 12:00:00"; "Ada"; "30"; "Engineer"; "Somewhat Familiar"])
  /\ after (main (second_form (Some Submit_Demographics)) noon empty_world)
     = empty_world.
Proof.
  split; [reflexivity | split].
  - destruct (demographic_rejected_iff (form (Some Submit_Demographics)) noon
                empty_world eq_refl) as (_ & _ & _ & _ & Hok).
    destruct Hok as (Hfile & _); [simpl; lia | discriminate | exact Hfile].
  - destruct (demographic_rejected_iff (second_form (Some Submit_Demographics))
                noon empty_world eq_refl) as (_ & _ & Hyoung & _).
    apply Hyoung. simpl. lia.
Defined.




Lemma report_exit_averages_witness :
  load_from_csv CONSENT_CSV (fs empty_world) = inr DataFrame_empty
  /\ load_from_csv DEMOGRAPHIC_CSV (fs empty_world) = inr DataFrame_empty
  /\ load_from_csv TASK_CSV (fs empty_world) = inr DataFrame_empty
  /\ fs empty_world !! EXIT_CSV = None
  /\ exit_submission (form (Some Submit_Exit_Questionnaire), noon)
  /\ exit_submission (second_form (Some Submit_Exit_Questionnaire), noon)
  /\ In (st_write "**Average Satisfaction**: 3.00")
        (shown (report_tab
                  (reruns
                     [(form (Some Submit_Exit_Questionnaire), noon);
                      (second_form (Some Submit_Exit_Questionnaire), noon)]
                     empty_world))).
Proof.
  assert (exit_submission (form (Some Submit_Exit_Questionnaire), noon)) as H1
    by (repeat split; simpl; lia).
  assert (exit_submission (second_form (Some Submit_Exit_Questionnaire), noon)) as H2
    by (repeat split; simpl; lia).
  assert (fs empty_world !! EXIT_CSV = None) as He by reflexivity.
  split; [reflexivity | split; [reflexivity | split; [reflexivity | split; [exact He |
    split; [exact H1 | split; [exact H2|]]]]]].
  apply (proj1 (proj2 (proj2 (proj2 (report_exit_averages))))
           empty_world _ _ DataFrame_empty DataFrame_empty DataFrame_empty
           eq_refl eq_refl eq_refl He H1 H2).
  left. split; reflexivity.
Defined.

Lemma append_keeps_written_contents_witness :
  pet_files !! "data/pets.csv" = Some (writerow ["name"; "legs"] +:+ writerow ["Tom"; "4"])
  /\ exists new,
       appends [pet_record; pet_record] "data/pets.csv" pet_files
         !! "data/pets.csv" = Some new
       /\ is_prefix (writerow ["name"; "legs"] +:+ writerow ["Tom"; "4"]) new.
Proof.
  split; [reflexivity|].
  apply (proj1 (proj2 (append_keeps_written_contents))
           [pet_record; pet_record] "data/pets.csv" pet_files).
  reflexivity.
Defined.


Lemma bug_fields_follow_checkbox_witness :
  pressed (form (Some Save_Task_Results)) = Some Save_Task_Results
  /\ bugs (form (Some Save_Task_Results)) = true
  /\ value_row (task_record (form (Some Save_Task_Results)) noon None)
     = ["2025-03-14 12:00:00"; "Task 1: Create a team of 6 Pokémon"; "Yes"; "";
        "KeyError: 'pikachu'"; "search box"; "4"; "none"].
Proof.
  split; [reflexivity | split; [reflexivity|]].
  destruct (bug_fields_follow_checkbox (form (Some Save_Task_Results)) noon
              empty_world eq_refl) as (_ & Hset & _).
  destruct (Hset eq_refl) as (_ & _ & _ & Hrow). exact Hrow.
Defined.

Lemma consent_file_only_true_witness :
  reachable
    (after (main (form (Some Submit_Consent)) noon empty_world))
  /\ exists df,
       load_from_csv CONSENT_CSV
         (fs (after (main (form (Some Submit_Consent)) noon empty_world)))
       = inr df
       /\ forall row, In row (rows df) -> row !! 1 = Some "True".
Proof.
  assert (reachable
            (after (main (form (Some Submit_Consent)) noon empty_world))) as H
    by (apply reachable_rerun, reachable_fresh, empty_world_fresh).
  split; [exact H|].
  destruct (proj1 (consent_file_only_true) _ H) as (df & Hload & Hrows & _).
  exists df. split; [exact Hload | exact Hrows].
Defined.

Lemma zero_duration_saved_as_empty_witness :
  pressed (form (Some Save_Task_Results)) = Some Save_Task_Results
  /\ session_state timed_world !! "task_duration" = Some (S754_zero false)
  /\ fs (after (main (form (Some Save_Task_Results)) noon timed_world))
     = fs (after (main (form (Some Save_Task_Results)) noon empty_world)).
Proof.
  assert (session_state timed_world !! "task_duration" = Some (S754_zero false)) as Hd
    by (apply (stopped_at_start_keeps_zero _ _ _ false 7306282952294400 (-22));
        reflexivity).
  split; [reflexivity | split; [exact Hd|]].
  destruct (zero_duration_saved_as_empty (form (Some Save_Task_Results)) noon
              timed_world false eq_refl Hd) as (_ & _ & Hfs).
  rewrite Hfs, !main_after. reflexivity.
Defined.

Lemma reruns_only_append_witness :
  fs pet_world !! "data/pets.csv"
  = Some (writerow ["name"; "legs"] +:+ writerow ["Tom"; "4"])
  /\ exists new,
       fs (reruns [(form (Some Submit_Consent), noon);
                   (form (Some Save_Task_Results), later)] pet_world)
         !! "data/pets.csv" = Some new
       /\ is_prefix (writerow ["name"; "legs"] +:+ writerow ["Tom"; "4"]) new.
Proof.
  assert (fs pet_world !! "data/pets.csv"
          = Some (writerow ["name"; "legs"] +:+ writerow ["Tom"; "4"])) as Hold
    by reflexivity.
  split; [exact Hold|].
  apply (reruns_only_append _ pet_world "data/pets.csv" _ Hold).
Defined.

Lemma rerun_writes_own_file_witness :
  file_of_rerun (form (Some Submit_Consent)) <> Some EXIT_CSV
  /\ fs (after (main (form (Some Submit_Consent)) noon mislabelled_world)) !! EXIT_CSV
     = fs mislabelled_world !! EXIT_CSV.
Proof.
  assert (file_of_rerun (form (Some Submit_Consent)) <> Some EXIT_CSV) as Hne
    by (intros H; vm_compute in H; discriminate H).
  split; [exact Hne|].
  apply (proj1 (rerun_writes_own_file (form (Some Submit_Consent)) noon mislabelled_world)
           EXIT_CSV Hne).
Defined.

Lemma reachable_files_keep_their_schema_witness :
  reachable (after (main (form (Some Submit_Exit_Questionnaire)) noon empty_world))
  /\ section_invariant exit_header
       (fs (after (main (form (Some Submit_Exit_Questionnaire)) noon empty_world))
          !! EXIT_CSV).
Proof.
  assert (reachable (after (main (form (Some Submit_Exit_Questionnaire)) noon empty_world)))
    as H by (apply reachable_rerun, reachable_fresh, empty_world_fresh).
  split; [exact H|].
  apply (reachable_files_keep_their_schema _ H).
Defined.

Lemma demographic_file_is_the_accepted_submissions_witness :
  fresh empty_world
  /\ fs (reruns [(form (Some Submit_Demographics), noon);
                 (second_form (Some Submit_Demographics), later);
                 (form (Some Submit_Consent), later)] empty_world) !! DEMOGRAPHIC_CSV
     = Some (writerow demographic_header
             +:+ writerow ["2025-03-14 12:00:00"; "Ada"; "30"; "Engineer";
                           "Somewhat Familiar"]).
Proof.
  split; [exact empty_world_fresh|].
  rewrite (proj1 (demographic_file_is_the_accepted_submissions
                    [(form (Some Submit_Demographics), noon);
                     (second_form (Some Submit_Demographics), later);
                     (form (Some Submit_Consent), later)] empty_world empty_world_fresh)).
  reflexivity.
Defined.

Lemma exit_saved_before_gif_witness :
  pressed (form (Some Submit_Exit_Questionnaire)) = Some Submit_Exit_Questionnaire
  /\ fs empty_world !! GIF = None
  /\ result (main (form (Some Submit_Exit_Questionnaire)) noon empty_world)
     = inl (Raised FileNotFoundError)
  /\ fs (after (main (form (Some Submit_Exit_Questionnaire)) noon empty_world)) !! EXIT_CSV
     = Some (writerow exit_header
             +:+ writerow ["2025-03-14 12:00:00"; "4"; "2"; "fine, thanks"]).
Proof.
  assert (fs empty_world !! GIF = None) as Hgif by reflexivity.
  split; [reflexivity | split; [exact Hgif|]].
  destruct (exit_saved_before_gif (form (Some Submit_Exit_Questionnaire)) noon empty_world
              eq_refl) as (Hfile & Hmissing & _).
  rewrite (Hmissing Hgif). split; [reflexivity | exact Hfile].
Defined.

Lemma stop_task_timer_witness :
  pressed (form (Some Stop_Task_Timer)) = Some Stop_Task_Timer
  /\ session_state empty_world !! "start_time" = None
  /\ main (form (Some Stop_Task_Timer)) noon empty_world = report_tab empty_world.
Proof.
  assert (session_state empty_world !! "start_time" = None) as Hnone by reflexivity.
  split; [reflexivity | split; [exact Hnone|]].
  apply (proj1 (stop_task_timer (form (Some Stop_Task_Timer)) noon empty_world eq_refl)
           Hnone).
Defined.

Lemma save_clears_the_timer_witness :
  pressed (form (Some Save_Task_Results)) = Some Save_Task_Results
  /\ session_state (after (main (form (Some Save_Task_Results)) noon measured_world))
       !! "task_duration" = None.
Proof.
  split; [reflexivity|].
  apply (save_clears_the_timer (form (Some Save_Task_Results))
           (form (Some Save_Task_Results)) noon later measured_world eq_refl).
Defined.

Lemma restart_keeps_measured_duration_witness :
  pressed (form (Some Start_Task_Timer)) = Some Start_Task_Timer
  /\ session_state measured_world !! "task_duration" = Some (float_of_Z 7)
  /\ session_state (after (main (form (Some Start_Task_Timer)) noon measured_world))
       !! "task_duration" = Some (float_of_Z 7).
Proof.
  assert (session_state measured_world !! "task_duration" = Some (float_of_Z 7)) as Hd
    by reflexivity.
  split; [reflexivity | split; [exact Hd|]].
  apply (restart_keeps_measured_duration (form (Some Start_Task_Timer))
           (form (Some Save_Task_Results)) noon later measured_world _ eq_refl Hd).
Defined.


Lemma report_stops_at_first_bad_file_witness :
  load_from_csv CONSENT_CSV (fs blank_world) = inl EmptyDataError
  /\ report_tab blank_world
     = {| shown := [st_write "**Consent Data**"]; after := blank_world;
          result := inl (Raised EmptyDataError) |}.
Proof.
  assert (load_from_csv CONSENT_CSV (fs blank_world) = inl EmptyDataError) as H
    by reflexivity.
  split; [exact H|].
  apply (proj1 (report_stops_at_first_bad_file blank_world EmptyDataError) H).
Defined.

Lemma report_without_rating_column_witness :
  load_from_csv EXIT_CSV (fs mislabelled_world)
  = inr {| columns := ["name"; "legs"]; index := [[]]; rows := [["Tom"; "4"]] |}
  /\ result (report_tab mislabelled_world) = inl (Raised KeyError).
Proof.
  assert (load_from_csv EXIT_CSV (fs mislabelled_world)
          = inr {| columns := ["name"; "legs"]; index := [[]]; rows := [["Tom"; "4"]] |})
    as He by reflexivity.
  assert (forall path, path <> EXIT_CSV ->
          load_from_csv path (fs mislabelled_world) = inr DataFrame_empty) as Hnone.
  { intros path Hne. unfold load_from_csv, mislabelled_world. cbn [fs].
    now rewrite lookup_singleton_ne by congruence. }
  destruct paths_distinct as (_ & _ & P3 & _ & P5 & P6).
  split; [exact He|].
  rewrite (report_without_rating_column mislabelled_world _ _ _ _
             (Hnone _ P3) (Hnone _ P5) (Hnone _ P6) He eq_refl (or_introl eq_refl)).
  reflexivity.
Defined.
